(** * Shake / reset controllers of the chess physics demos

    The repository ships a 2D board simulator (chess-physics-sim.tsx, on
    Matter.js) and a 3D room scene (on react-three/cannon).  Both own a
    cumulative shake intensity, a "shake" command that injects random
    forces into the piece bodies and a "reset" command that restores the
    starting layout.  This development embeds these commands and the
    world setup, and proves the properties the specification states
    about them.

    Conventions of the embedding.
    - A JavaScript number is an exact rational ([Q]); rounding of
      IEEE doubles is not modelled.  Intensities and indices, which the
      code only ever increments from 0, are [Z] and [nat].
    - [Math.random] is a stream [random : nat -> Q] of draws together
      with the number of calls made so far, threaded through the state.
    - Event handlers run one at a time with a re-render in between, so
      the state value a handler closes over is the current one.
    - The physics and rendering engines are external.  Their body API
      is represented by the fields the handlers read and write.
    - The older 3D page (chess-physics-3d.tsx) keeps the same intensity
      counter, but its shake of the pieces and its reset are stubs; it
      is not embedded. *)

From Stdlib Require Import List ZArith QArith Qabs Qminmax Lqa Lia String Ascii Bool.
Import ListNotations.

Open Scope Q_scope.

(** Numbers that come from loop counters. *)
Definition num (n : nat) : Q := inject_Z (Z.of_nat n).

(** ** Strings: the one-character piece codes *)

Definition upperAscii (c : ascii) : ascii :=
  let n := nat_of_ascii c in
  if (Nat.leb 97 n && Nat.leb n 122)%bool then ascii_of_nat (n - 32) else c.

(** [String.prototype.toUpperCase], on the ASCII range the board uses. *)
Fixpoint toUpperCase (s : string) : string :=
  match s with
  | EmptyString => EmptyString
  | String c rest => String (upperAscii c) (toUpperCase rest)
  end.

Definition lowerAscii (c : ascii) : ascii :=
  let n := nat_of_ascii c in
  if (Nat.leb 65 n && Nat.leb n 90)%bool then ascii_of_nat (n + 32) else c.

Fixpoint toLowerCase (s : string) : string :=
  match s with
  | EmptyString => EmptyString
  | String c rest => String (lowerAscii c) (toLowerCase rest)
  end.

(** Standard chess starting position: the same literal in every variant. *)
Definition initialBoard : list (list string) :=
  [ ["r"; "n"; "b"; "q"; "k"; "b"; "n"; "r"];
    ["p"; "p"; "p"; "p"; "p"; "p"; "p"; "p"];
    ["."; "."; "."; "."; "."; "."; "."; "."];
    ["."; "."; "."; "."; "."; "."; "."; "."];
    ["."; "."; "."; "."; "."; "."; "."; "."];
    ["."; "."; "."; "."; "."; "."; "."; "."];
    ["P"; "P"; "P"; "P"; "P"; "P"; "P"; "P"];
    ["R"; "N"; "B"; "Q"; "K"; "B"; "N"; "R"] ]%string.

(** [initialBoard[row][col]]; the loops below never leave the grid. *)
Definition cell (row col : nat) : string :=
  nth col (nth row initialBoard []) EmptyString.

(** Index-aware [forEach]: the callback sees each element and its index. *)
Fixpoint forEachIndexed {A B : Type} (f : A -> nat -> B) (start : nat) (l : list A) : list B :=
  match l with
  | [] => []
  | a :: rest => f a start :: forEachIndexed f (S start) rest
  end.

(** [forEach] whose callback calls [Math.random]: the call counter is threaded. *)
Fixpoint forEachRandom {A B : Type} (f : A -> nat -> B * nat) (l : list A) (calls : nat)
  : list B * nat :=
  match l with
  | [] => ([], calls)
  | a :: rest =>
      let (a', calls') := f a calls in
      let (rest', calls'') := forEachRandom f rest calls' in
      (a' :: rest', calls'')
  end.

(** ** The Matter.js body interface used by the 2D simulator *)

Module Matter.

Record Vector := mkVector { x : Q; y : Q }.

Definition zero : Vector := mkVector 0 0.

Inductive Shape :=
| Circle (radius : Q)
| Rectangle (width height : Q).

(** The options object the source passes to [Bodies.circle] / [Bodies.rectangle]
    (render styles left out). *)
Record Options := mkOptions {
  optIsStatic : bool;
  optRestitution : option Q;
  optFriction : option Q;
  optFrictionAir : option Q }.

Record Body := mkBody {
  shape : Shape;
  options : Options;
  position : Vector;
  velocity : Vector;
  angle : Q;
  angularVelocity : Q;
  force : Vector;
  torque : Q }.

Definition isStatic (b : Body) : bool := optIsStatic (options b).

(** A new body rests at the given centre. *)
Definition create (sh : Shape) (px py : Q) (o : Options) : Body :=
  mkBody sh o (mkVector px py) zero 0 0 zero 0.

Definition circle (px py r : Q) (o : Options) : Body := create (Circle r) px py o.

Definition rectangle (px py w h : Q) (o : Options) : Body :=
  create (Rectangle w h) px py o.

Definition setPosition (b : Body) (p : Vector) : Body :=
  mkBody (shape b) (options b) p (velocity b) (angle b) (angularVelocity b)
         (force b) (torque b).

Definition setVelocity (b : Body) (v : Vector) : Body :=
  mkBody (shape b) (options b) (position b) v (angle b) (angularVelocity b)
         (force b) (torque b).

Definition setAngularVelocity (b : Body) (w : Q) : Body :=
  mkBody (shape b) (options b) (position b) (velocity b) (angle b) w
         (force b) (torque b).

Definition setAngle (b : Body) (a : Q) : Body :=
  mkBody (shape b) (options b) (position b) (velocity b) a (angularVelocity b)
         (force b) (torque b).

(** [Body.translate]: move by an offset, whatever [isStatic] says. *)
Definition translate (b : Body) (t : Vector) : Body :=
  setPosition b (mkVector (x (position b) + x t) (y (position b) + y t)).

(** [Body.applyForce]: accumulate the force, and the torque of its lever arm. *)
Definition applyForce (b : Body) (from f : Vector) : Body :=
  let ox := x from - x (position b) in
  let oy := y from - y (position b) in
  mkBody (shape b) (options b) (position b) (velocity b) (angle b) (angularVelocity b)
         (mkVector (x (force b) + x f) (y (force b) + y f))
         (torque b + (ox * y f - oy * x f)).

End Matter.

(** ** The 2D simulator (chess-physics-sim.tsx) *)

Module Sim2D.
Import Matter.

(** A piece is a Matter body carrying the extra properties [createPieces]
    attaches to it (the glyph [symbol] is presentation only). *)
Record Piece := mkPiece {
  body : Body;
  isWhite : bool;
  originalX : Q;
  originalY : Q;
  pieceType : string }.

Definition onBody (f : Body -> Body) (p : Piece) : Piece :=
  mkPiece (f (body p)) (isWhite p) (originalX p) (originalY p) (pieceType p).

(** The engine with the part of its world no ref points to: the walls.
    Board squares and pieces live in the world too, but they are the very
    objects [boardRef] and [piecesRef] hold, so they are stored once. *)
Record Engine := mkEngine {
  gravityY : Q;
  walls : list Body }.

Record State := mkState {
  windowMatter : bool;
  engineRef : option Engine;
  boardRef : option (list Body);
  piecesRef : list Piece;
  isLoaded : bool;
  shakeIntensity : Z;
  randomCalls : nat }.

Definition initialState : State :=
  mkState false None None [] false 0%Z 0%nat.

(** All bodies of [engine.world], in the order of [World.add]. *)
Definition worldBodies (s : State) : list Body :=
  match engineRef s with
  | None => []
  | Some e =>
      walls e ++ match boardRef s with Some sq => sq | None => [] end
              ++ map body (piecesRef s)
  end.

Definition staticOptions : Options := mkOptions true None None None.

Definition pieceOptions : Options :=
  mkOptions false (Some 0.3) (Some 0.8) (Some 0.01).

Definition createPieces (squareSize : Q) : list Piece :=
  flat_map (fun row =>
    flat_map (fun col =>
      let piece := cell row col in
      if String.eqb piece "." then []
      else
        let px := num col * squareSize + squareSize / 2 in
        let py := num row * squareSize + squareSize / 2 in
        let white := String.eqb piece (toUpperCase piece) in
        [mkPiece (circle px py 25 pieceOptions) white px py piece])
      (seq 0 8))
    (seq 0 8).

Definition createWalls (thickness boardSize : Q) : list Body :=
  [ rectangle (boardSize / 2) (- thickness / 2) boardSize thickness staticOptions;
    rectangle (boardSize / 2) (boardSize + thickness / 2) boardSize thickness staticOptions;
    rectangle (- thickness / 2) (boardSize / 2) thickness boardSize staticOptions;
    rectangle (boardSize + thickness / 2) (boardSize / 2) thickness boardSize staticOptions ].

Definition createSquares (squareSize : Q) : list Body :=
  flat_map (fun row =>
    map (fun col =>
      rectangle (num col * squareSize + squareSize / 2)
                (num row * squareSize + squareSize / 2)
                squareSize squareSize staticOptions)
      (seq 0 8))
    (seq 0 8).

(** [initializePhysics]; [canvas] tells whether [canvasRef.current] is set. *)
Definition initializePhysics (canvas : bool) (s : State) : State :=
  if (negb canvas || negb (windowMatter s))%bool then s
  else
    let squareSize := 80 in
    mkState (windowMatter s)
            (Some (mkEngine 0.8 (createWalls 20 640)))
            (Some (createSquares squareSize))
            (createPieces squareSize)
            (isLoaded s) (shakeIntensity s) (randomCalls s).

(** The script's [onload]: Matter is now on [window]. *)
Definition scriptOnload (canvas : bool) (s : State) : State :=
  initializePhysics canvas
    (mkState true (engineRef s) (boardRef s) (piecesRef s) true
             (shakeIntensity s) (randomCalls s)).

(** The guard both handlers start with. *)
Definition ready (s : State) : bool :=
  match engineRef s with Some _ => windowMatter s | None => false end.

Definition resetPiece (piece : Piece) : Piece :=
  let p1 := onBody (fun b => setPosition b (mkVector (originalX piece) (originalY piece))) piece in
  let p2 := onBody (fun b => setVelocity b (mkVector 0 0)) p1 in
  let p3 := onBody (fun b => setAngularVelocity b 0) p2 in
  onBody (fun b => setAngle b 0) p3.

Definition resetSquare (square : Body) (index : nat) : Body :=
  let squareSize := 80 in
  let row := (index / 8)%nat in
  let col := (index mod 8)%nat in
  let originalX := num col * squareSize + squareSize / 2 in
  let originalY := num row * squareSize + squareSize / 2 in
  setPosition square (mkVector originalX originalY).

Definition resetBoard (s : State) : State :=
  if negb (ready s) then s
  else
    mkState (windowMatter s) (engineRef s)
            (match boardRef s with
             | Some squares => Some (forEachIndexed resetSquare 0 squares)
             | None => None
             end)
            (map resetPiece (piecesRef s))
            (isLoaded s) 0%Z (randomCalls s).

Section Shake.
Variable random : nat -> Q.

Definition shakePiece (intensity : Z) (piece : Piece) (calls : nat) : Piece * nat :=
  let forceX := (random calls - 0.5) * inject_Z intensity * 0.01 in
  let forceY := (random (S calls) - 0.5) * inject_Z intensity * 0.01 in
  (onBody (fun b => applyForce b (position b) (mkVector forceX forceY)) piece,
   S (S calls)).

Definition shakeSquare (intensity : Z) (square : Body) (calls : nat) : Body * nat :=
  let shakeX := (random calls - 0.5) * (inject_Z intensity - 5) * 2 in
  let shakeY := (random (S calls) - 0.5) * (inject_Z intensity - 5) * 2 in
  (translate square (mkVector shakeX shakeY), S (S calls)).

Definition shakeBoard (s : State) : State :=
  if negb (ready s) then s
  else
    let intensity := (shakeIntensity s + 1)%Z in
    let (pieces', calls1) :=
      forEachRandom (shakePiece intensity) (piecesRef s) (randomCalls s) in
    let (board', calls2) :=
      match boardRef s with
      | Some squares =>
          if (5 <? intensity)%Z then
            let (squares', c) := forEachRandom (shakeSquare intensity) squares calls1 in
            (Some squares', c)
          else (Some squares, calls1)
      | None => (None, calls1)
      end in
    mkState (windowMatter s) (engineRef s) board' pieces' (isLoaded s)
            (Z.min (shakeIntensity s + 1) 10) calls2.

(** What can happen to the page: the script finishes loading, or one of
    the two buttons is pressed. *)
Inductive Command := Onload (canvas : bool) | Shake | Reset.

Definition run (s : State) (c : Command) : State :=
  match c with
  | Onload canvas => scriptOnload canvas s
  | Shake => shakeBoard s
  | Reset => resetBoard s
  end.

Definition runAll (s : State) (cs : list Command) : State := fold_left run cs s.

End Shake.

End Sim2D.

(** ** The cannon body interface used by the 3D scene *)

Module Cannon.

Definition Triplet : Type := (Q * Q * Q)%type.

Definition origin : Triplet := (0, 0, 0).

Inductive BodyType := Dynamic | Static | Kinematic.

Record Body := mkBody {
  bodyType : BodyType;
  mass : Q;
  args : Triplet;
  position : Triplet;
  rotation : Triplet;
  velocity : Triplet;
  angularVelocity : Triplet }.

(** What [useCylinder] / [useBox] hand to the physics world on mount. *)
Definition create (t : BodyType) (m : Q) (a p : Triplet) : Body :=
  mkBody t m a p origin origin origin.

(** [api.applyImpulse(impulse, [0, 0, 0])]: an impulse through the centre of
    mass has no lever arm, so only the linear velocity of a dynamic body
    changes, by impulse / mass. *)
Definition applyImpulseAtCentre (b : Body) (impulse : Triplet) : Body :=
  match bodyType b with
  | Dynamic =>
      let '(ix, iy, iz) := impulse in
      let '(vx, vy, vz) := velocity b in
      mkBody (bodyType b) (mass b) (args b) (position b) (rotation b)
             (vx + ix / mass b, vy + iy / mass b, vz + iz / mass b)
             (angularVelocity b)
  | _ => b
  end.

End Cannon.

(** ** The 3D room scene (ChessPiece, ChessScene and the page component) *)

Module Scene3D.
Import Cannon.

Definition getPieceHeight (piece : string) : Q :=
  let p := toLowerCase piece in
  if String.eqb p "p" then 0.3
  else if String.eqb p "r" then 0.4
  else if (String.eqb p "n" || String.eqb p "b")%bool then 0.45
  else if String.eqb p "q" then 0.5
  else if String.eqb p "k" then 0.55
  else 0.4.

(** The identifier template [`${rowIndex}-${colIndex}`] is kept as the pair. *)
Record PieceData := mkPieceData {
  id : nat * nat;
  piece : string;
  isWhite : bool;
  position : Triplet }.

(** The body of the [useEffect] of [ChessScene]. *)
Definition newPieces : list PieceData :=
  List.concat (forEachIndexed (fun row rowIndex =>
    List.concat (forEachIndexed (fun piece colIndex =>
      if String.eqb piece "." then []
      else
        let isWhite := String.eqb piece (toUpperCase piece) in
        let px := (num colIndex - 3.5) * 0.5 in
        let pz := (num rowIndex - 3.5) * 0.5 in
        let boardSurface := - 0.3 + 0.05 in
        let pieceHeight := getPieceHeight piece in
        let pieceY := boardSurface + pieceHeight / 2 in
        [mkPieceData (rowIndex, colIndex) piece isWhite (px, pieceY, pz)])
      0%nat row))
    0%nat initialBoard).

(** A mounted [ChessPiece]: its React key [`${id}-${resetTrigger}`], its props
    and the physics body its [useCylinder] owns. *)
Record Mounted := mkMounted {
  key : (nat * nat) * Z;
  props : PieceData;
  cylinder : Body }.

(** The page state together with the mounted pieces.  The scene's own
    [pieces] state is [[]] only until its first effect has run and the
    constant [newPieces] ever after, so no copy of it is kept. *)
Record State := mkState {
  shakeIntensity : Z;
  shakeForce : Z;
  resetTrigger : Z;
  mounted : list Mounted;
  randomCalls : nat }.

Definition keyEqb (k1 k2 : (nat * nat) * Z) : bool :=
  (Nat.eqb (fst (fst k1)) (fst (fst k2)) && Nat.eqb (snd (fst k1)) (snd (fst k2))
   && Z.eqb (snd k1) (snd k2))%bool.

Definition mount (pd : PieceData) (trigger : Z) : Mounted :=
  mkMounted (id pd, trigger) pd
    (create Dynamic 1.0 (0.12, 0.15, getPieceHeight (piece pd)) (position pd)).

Section Shake.
Variable random : nat -> Q.

(** The "apply shake forces" effect of [ChessPiece]. *)
Definition shakeImpulse (force : Z) (calls : nat) : option Triplet :=
  if (0 <? force)%Z then
    let forceX := (random calls - 0.5) * inject_Z force * 0.4 in
    let forceZ := (random (S calls) - 0.5) * inject_Z force * 0.4 in
    let forceY := random (S (S calls)) * inject_Z force * 0.15 in
    Some (forceX, forceY, forceZ)
  else None.

Definition shakeEffect (force : Z) (m : Mounted) (calls : nat) : Mounted * nat :=
  match shakeImpulse force calls with
  | Some impulse =>
      (mkMounted (key m) (props m) (applyImpulseAtCentre (cylinder m) impulse),
       S (S (S calls)))
  | None => (m, calls)
  end.

(** Reconciliation of one child of [ChessScene]: a component whose key is
    already mounted is kept, and its effect re-runs only when [shakeForce]
    changed; any other key mounts a fresh component, whose effect runs. *)
Definition renderPiece (old : list Mounted) (prevForce force trigger : Z)
           (pd : PieceData) (calls : nat) : Mounted * nat :=
  match find (fun m => keyEqb (key m) (id pd, trigger)) old with
  | Some m =>
      let m' := mkMounted (key m) pd (cylinder m) in
      if (force =? prevForce)%Z then (m', calls) else shakeEffect force m' calls
  | None => shakeEffect force (mount pd trigger) calls
  end.

(** A render of the page after its state went from [s] to the given
    intensity, force and trigger, followed by the effects it schedules.
    ([setPieces] stores an equal array, so the render it causes finds
    every key mounted and no dependency changed.) *)
Definition render (s : State) (intensity force trigger : Z) : State :=
  let (mounted', calls') :=
    forEachRandom (renderPiece (mounted s) (shakeForce s) force trigger)
                  newPieces (randomCalls s) in
  mkState intensity force trigger mounted' calls'.

Definition shakeBoard (s : State) : State :=
  let newIntensity := Z.min (shakeIntensity s + 1) 10 in
  render s newIntensity newIntensity (resetTrigger s).

(** The [setTimeout] callback of [shakeBoard], 500 ms later. *)
Definition shakeTimeout (s : State) : State :=
  render s (shakeIntensity s) 0%Z (resetTrigger s).

Definition resetBoard (s : State) : State :=
  render s 0%Z 0%Z (resetTrigger s + 1)%Z.

(** First render: the scene's effect fills [pieces], the next render
    mounts one [ChessPiece] per entry. *)
Definition initialState : State :=
  let s0 := mkState 0%Z 0%Z 0%Z [] 0%nat in
  render s0 0%Z 0%Z 0%Z.

Inductive Command := Shake | Timeout | Reset.

Definition run (s : State) (c : Command) : State :=
  match c with
  | Shake => shakeBoard s
  | Timeout => shakeTimeout s
  | Reset => resetBoard s
  end.

Definition runAll (s : State) (cs : list Command) : State := fold_left run cs s.

End Shake.

End Scene3D.

(** ** Vocabulary of the statements *)

(** [Math.random] returns a number in the half-open interval from 0 to 1. *)
Definition unitDraws (random : nat -> Q) : Prop :=
  forall n, 0 <= random n /\ random n < 1.

(** Every mounted piece of the 3D scene carries the current [resetTrigger]
    in its key: what React guarantees after each render of [ChessScene]. *)
Definition keysCurrent (s : Scene3D.State) : Prop :=
  Forall (fun m => snd (Scene3D.key m) = Scene3D.resetTrigger s) (Scene3D.mounted s).

(** The mounted pieces of the 3D scene are the children [ChessScene] renders:
    one per entry of [newPieces], in order, under the current key. *)
Definition consistent (s : Scene3D.State) : Prop :=
  map Scene3D.key (Scene3D.mounted s)
  = map (fun pd => (Scene3D.id pd, Scene3D.resetTrigger s)) Scene3D.newPieces.

(** A piece body of the 2D simulator is back where it was created, at rest. *)
Definition atOrigin2D (p : Sim2D.Piece) : Prop :=
  Matter.position (Sim2D.body p) = Matter.mkVector (Sim2D.originalX p) (Sim2D.originalY p)
  /\ Matter.velocity (Sim2D.body p) = Matter.mkVector 0 0
  /\ Matter.angularVelocity (Sim2D.body p) = 0
  /\ Matter.angle (Sim2D.body p) = 0.

(** A mounted piece of the 3D scene sits at the position of its props, at rest. *)
Definition atOrigin3D (m : Scene3D.Mounted) : Prop :=
  Cannon.position (Scene3D.cylinder m) = Scene3D.position (Scene3D.props m)
  /\ Cannon.velocity (Scene3D.cylinder m) = Cannon.origin
  /\ Cannon.angularVelocity (Scene3D.cylinder m) = Cannon.origin
  /\ Cannon.rotation (Scene3D.cylinder m) = Cannon.origin.

(** A shake leaves the motion state of a 2D piece alone, and its origin and
    code; what it may change are the force and torque accumulators. *)
Definition sameButForce (p p' : Sim2D.Piece) : Prop :=
  Matter.position (Sim2D.body p') = Matter.position (Sim2D.body p)
  /\ Matter.velocity (Sim2D.body p') = Matter.velocity (Sim2D.body p)
  /\ Matter.angle (Sim2D.body p') = Matter.angle (Sim2D.body p)
  /\ Matter.angularVelocity (Sim2D.body p') = Matter.angularVelocity (Sim2D.body p)
  /\ Matter.shape (Sim2D.body p') = Matter.shape (Sim2D.body p)
  /\ Matter.options (Sim2D.body p') = Matter.options (Sim2D.body p)
  /\ Sim2D.originalX p' = Sim2D.originalX p
  /\ Sim2D.originalY p' = Sim2D.originalY p
  /\ Sim2D.pieceType p' = Sim2D.pieceType p
  /\ Sim2D.isWhite p' = Sim2D.isWhite p.

(** The force a shake added to a 2D piece. *)
Definition forceAdded (p p' : Sim2D.Piece) : Matter.Vector :=
  Matter.mkVector
    (Matter.x (Matter.force (Sim2D.body p')) - Matter.x (Matter.force (Sim2D.body p)))
    (Matter.y (Matter.force (Sim2D.body p')) - Matter.y (Matter.force (Sim2D.body p))).

(** The offset a shake moved a board square by. *)
Definition offsetOf (b b' : Matter.Body) : Matter.Vector :=
  Matter.mkVector (Matter.x (Matter.position b') - Matter.x (Matter.position b))
                  (Matter.y (Matter.position b') - Matter.y (Matter.position b)).

(** Both components of a vector are at most [bound] in absolute value. *)
Definition within (bound : Q) (v : Matter.Vector) : Prop :=
  Qabs (Matter.x v) <= bound /\ Qabs (Matter.y v) <= bound.

(** Two Matter bodies that differ at most in their position. *)
Definition sameButPosition (b b' : Matter.Body) : Prop :=
  Matter.setPosition b' (Matter.position b) = b.

(** The centre of grid square (row, col) of the 2D board, 80 units a square. *)
Definition squareCentre (row col : nat) : Matter.Vector :=
  Matter.mkVector (num col * 80 + 40) (num row * 80 + 40).

Definition vectorEq (v w : Matter.Vector) : Prop :=
  Matter.x v == Matter.x w /\ Matter.y v == Matter.y w.

Definition isUpperCode (c : string) : bool :=
  existsb (String.eqb c) ["K"; "Q"; "R"; "B"; "N"; "P"]%string.

Definition isLowerCode (c : string) : bool :=
  existsb (String.eqb c) ["k"; "q"; "r"; "b"; "n"; "p"]%string.

(** [boardRef.current], or no squares while it is unset. *)
Definition squaresOf (s : Sim2D.State) : list Matter.Body :=
  match Sim2D.boardRef s with
  | Some squares => squares
  | None => []
  end.

(** The position [resetBoard] computes for the square of a given index:
    column = index mod 8, row = index div 8, centre of that grid square. *)
Definition gridPosition (index : nat) : Matter.Vector :=
  Matter.mkVector (num (index mod 8) * 80 + 80 / 2) (num (index / 8) * 80 + 80 / 2).

(** The 2D piece [p] carries the code of square (row, col) and stands on
    its centre. *)
Definition standsOn2D (row col : nat) (p : Sim2D.Piece) : bool :=
  (String.eqb (Sim2D.pieceType p) (cell row col)
   && Qeq_bool (Matter.x (Matter.position (Sim2D.body p))) (num col * 80 + 40)
   && Qeq_bool (Matter.y (Matter.position (Sim2D.body p))) (num row * 80 + 40))%bool.

(** The 3D piece entry [pd] carries the code of square (row, col) and stands
    over the centre of its half-unit square of the board. *)
Definition standsOn3D (row col : nat) (pd : Scene3D.PieceData) : bool :=
  (String.eqb (Scene3D.piece pd) (cell row col)
   && Nat.eqb (fst (Scene3D.id pd)) row && Nat.eqb (snd (Scene3D.id pd)) col
   && Qeq_bool (fst (fst (Scene3D.position pd))) ((num col - 3.5) * 0.5)
   && Qeq_bool (snd (Scene3D.position pd)) ((num row - 3.5) * 0.5))%bool.

(** Concrete runs used to exercise the statements: a generator that always
    returns 0 and one that always returns 0.75, the 2D page after its script loaded and [n] shakes, and the
    3D scene after its first render. *)
Definition zeroDraws : nat -> Q := fun _ => 0.

Definition highDraws : nat -> Q := fun _ => 0.75.

Definition shaken2D (n : nat) : Sim2D.State :=
  Sim2D.runAll zeroDraws Sim2D.initialState (Sim2D.Onload true :: repeat Sim2D.Shake n).

Definition scene3D : Scene3D.State := Scene3D.initialState zeroDraws.

(** What every reachable state of the 2D page satisfies. *)
Definition inv2D (s : Sim2D.State) : Prop :=
  (0 <= Sim2D.shakeIntensity s <= 10)%Z
  /\ (Sim2D.shakeIntensity s = 0%Z \/ Sim2D.ready s = true).

(** ** The room of the 3D scene: walls, floor and camera *)

Module Room.

(** A box mesh or body: its centre and its [args] (width, height, depth). *)
Record Box := mkBox { centre : Cannon.Triplet; args : Cannon.Triplet }.

(** [RoomWalls]: back wall, front wall, left wall, right wall, ceiling. *)
Definition roomWalls : list Box :=
  [ mkBox (0, 2.5, - 15) (30, 15, 0.2);
    mkBox (0, 2.5, 15) (30, 15, 0.2);
    mkBox (- 15, 2.5, 0) (0.2, 15, 30);
    mkBox (15, 2.5, 0) (0.2, 15, 30);
    mkBox (0, 10, 0) (30, 0.2, 30) ].

(** [WoodenFloor]. *)
Definition woodenFloor : Box := mkBox (0, - 3, 0) (40, 0.1, 40).

(** The [useFrame] callback of [CameraController]; [controls] tells whether
    [controlsRef.current] is set. *)
Definition cameraFrame (controls : bool) (position : Cannon.Triplet) : Cannon.Triplet :=
  if controls then
    let '(px, py, pz) := position in
    let minX := - 14.5 in
    let maxX := 14.5 in
    let minY := - 2.5 in
    let maxY := 9.5 in
    let minZ := - 14.5 in
    let maxZ := 14.5 in
    (Qmax minX (Qmin maxX px), Qmax minY (Qmin maxY py), Qmax minZ (Qmin maxZ pz))
  else position.

End Room.

(** ** The solid board of the 3D scene *)

Module Board3D.

(** The part of a THREE group the frame callback writes. *)
Record Group := mkGroup {
  groupPosition : Cannon.Triplet;
  groupRotation : Cannon.Triplet }.

(** The values [Math.sin(time * 3)], [Math.cos(time * 2.5)] and
    [Math.sin(time * 6)] of one frame, [time] being [Date.now() * 0.01]. *)
Record Wave := mkWave { sin3 : Q; cos25 : Q; sin6 : Q }.

Definition safeYPosition : Q := - 0.3.

(** The physics body of the board: a static box of 4 x 0.1 x 4. *)
Definition boardBody : Cannon.Body :=
  Cannon.create Cannon.Static 0 (4.0, 0.1, 4.0) (0, safeYPosition, 0).

(** The [useFrame] callback of [SolidChessBoard]. *)
Definition boardFrame (w : Wave) (shakeForce : Z) (boardGroupRef : option Group)
  : option Group :=
  match boardGroupRef with
  | Some g =>
      let '(px, _, pz) := groupPosition g in
      let '(_, ry, _) := groupRotation g in
      if (0 <? shakeForce)%Z then
        let intensity := inject_Z shakeForce * 0.015 in
        let rotationX := sin3 w * intensity * 0.5 in
        let rotationZ := cos25 w * intensity * 0.5 in
        let jumpHeight := (sin6 w * 0.5 + 0.5) * intensity * 0.3 in
        Some (mkGroup (px, safeYPosition + jumpHeight, pz) (rotationX, ry, rotationZ))
      else
        Some (mkGroup (px, safeYPosition, pz) (0, ry, 0))
  | None => None
  end.

End Board3D.

(** ** The older 3D page (chess-physics-3d.tsx) *)

Module Legacy3D.

(** The page state and the board group [boardRef] points to once mounted. *)
Record State := mkState {
  shakeIntensity : Z;
  boardRef : option Board3D.Group;
  randomCalls : nat }.

Section Shake.
Variable random : nat -> Q.

(** [sine n] is the value of [Math.sin(Date.now() * 0.01)] read by the call
    of [applyShake] whose first draw is draw number [n]. *)
Variable sine : nat -> Q.

Definition applyShake (s : State) : State :=
  match boardRef s with
  | None => s
  | Some g =>
      let '(px, _, pz) := Board3D.groupPosition g in
      let '(_, ry, _) := Board3D.groupRotation g in
      let calls := randomCalls s in
      let intensity := inject_Z (shakeIntensity s) * 0.1 in
      let rotationX := (random calls - 0.5) * intensity * 0.2 in
      let rotationZ := (random (S calls) - 0.5) * intensity * 0.2 in
      let positionY := sine calls * intensity * 0.5 in
      mkState (shakeIntensity s)
              (Some (Board3D.mkGroup (px, positionY, pz) (rotationX, ry, rotationZ)))
              (S (S calls))
  end.

(** The body of [ChessBoard], run at each of its renders. *)
Definition renderChessBoard (s : State) : State :=
  if (0 <? shakeIntensity s)%Z then applyShake s else s.

(** [setShakeIntensity]: a new value re-renders the page and with it the
    board; an unchanged value does not. *)
Definition setShakeIntensity (s : State) (value : Z) : State :=
  if (value =? shakeIntensity s)%Z then s
  else renderChessBoard (mkState value (boardRef s) (randomCalls s)).

Definition shakeBoard (s : State) : State :=
  setShakeIntensity s (Z.min (shakeIntensity s + 1) 10).

Definition resetBoard (s : State) : State :=
  setShakeIntensity s 0%Z.

Inductive Command := Shake | Reset.

Definition run (s : State) (c : Command) : State :=
  match c with
  | Shake => shakeBoard s
  | Reset => resetBoard s
  end.

Definition runAll (s : State) (cs : list Command) : State := fold_left run cs s.

End Shake.

(** The page once the board is mounted, level, at the origin. *)
Definition mountedState : State :=
  mkState 0 (Some (Board3D.mkGroup (0, 0, 0) (0, 0, 0))) 0.

End Legacy3D.

(** ** Presentation logic shared by the pages *)

(** The colour test of a board square: [(row + col) % 2 === 0]. *)
Definition isLight (row col : nat) : bool := Nat.eqb ((row + col) mod 2) 0.

(** The intensity bar of the page: rendered only for a positive intensity,
    with width [(shakeIntensity / 10) * 100] percent. *)
Definition intensityBar (shakeIntensity : Z) : option Q :=
  if (0 <? shakeIntensity)%Z then Some (inject_Z shakeIntensity / 10 * 100) else None.

(** ** More vocabulary *)

(** One of the two buttons of the 2D page. *)
Definition isButton (c : Sim2D.Command) : bool :=
  match c with
  | Sim2D.Onload _ => false
  | _ => true
  end.

(** What a Matter body is, as opposed to how it moves. *)
Definition bodyKind (b : Matter.Body) : Matter.Shape * Matter.Options :=
  (Matter.shape b, Matter.options b).

(** The squares of the starting layout that hold a piece, row by row. *)
Definition occupiedCells : list (nat * nat) :=
  filter (fun rc => negb (String.eqb (cell (fst rc) (snd rc)) "."))
         (list_prod (seq 0 8) (seq 0 8)).

(** Squared distance between the centres of two 2D bodies. *)
Definition distance2 (b b' : Matter.Body) : Q :=
  (Matter.x (Matter.position b) - Matter.x (Matter.position b'))
  * (Matter.x (Matter.position b) - Matter.x (Matter.position b'))
  + (Matter.y (Matter.position b) - Matter.y (Matter.position b'))
    * (Matter.y (Matter.position b) - Matter.y (Matter.position b')).

(** The point lies in the closed box. *)
Definition insideBox (p : Cannon.Triplet) (b : Room.Box) : Prop :=
  let '(px, py, pz) := p in
  let '(cx, cy, cz) := Room.centre b in
  let '(w, h, d) := Room.args b in
  Qabs (px - cx) <= w / 2 /\ Qabs (py - cy) <= h / 2 /\ Qabs (pz - cz) <= d / 2.

(** Two points with equal coordinates. *)
Definition tripletEq (p q : Cannon.Triplet) : Prop :=
  fst (fst p) == fst (fst q) /\ snd (fst p) == snd (fst q) /\ snd p == snd q.

(** The region [CameraController] keeps the camera in. *)
Definition inCameraRange (p : Cannon.Triplet) : Prop :=
  (- 14.5 <= fst (fst p) /\ fst (fst p) <= 14.5)
  /\ (- 2.5 <= snd (fst p) /\ snd (fst p) <= 9.5)
  /\ (- 14.5 <= snd p /\ snd p <= 14.5).

(** Every character of the string is in the ASCII range. *)
Fixpoint isAscii (s : string) : bool :=
  match s with
  | EmptyString => true
  | String c rest => (Nat.ltb (nat_of_ascii c) 128 && isAscii rest)%bool
  end.

(** The values of one frame are sines and cosines: between -1 and 1. *)
Definition unitWave (w : Board3D.Wave) : Prop :=
  (- 1 <= Board3D.sin3 w /\ Board3D.sin3 w <= 1)
  /\ (- 1 <= Board3D.cos25 w /\ Board3D.cos25 w <= 1)
  /\ (- 1 <= Board3D.sin6 w /\ Board3D.sin6 w <= 1).

(** How far the older page may tilt and lift its board at a given intensity. *)
Definition tiltWithin (level : Q) (g : Board3D.Group) : Prop :=
  Qabs (fst (fst (Board3D.groupRotation g))) <= 0.01 * level
  /\ Qabs (snd (Board3D.groupRotation g)) <= 0.01 * level
  /\ Qabs (snd (fst (Board3D.groupPosition g))) <= 0.05 * level.

(** Every value of the stream is a sine: between -1 and 1. *)
Definition unitSines (sine : nat -> Q) : Prop :=
  forall n, - 1 <= sine n /\ sine n <= 1.

(** Vertical velocity of a cannon body. *)
Definition vy (b : Cannon.Body) : Q := snd (fst (Cannon.velocity b)).

(** ** Loops *)

Lemma forEachIndexed_nth_error {A B : Type} (f : A -> nat -> B) (l : list A) :
  forall start k,
    nth_error (forEachIndexed f start l) k
    = option_map (fun a => f a (start + k)%nat) (nth_error l k).
Proof.
  induction l as [|a rest IH]; intros start k.
  - destruct k; reflexivity.
  - destruct k as [|k]; simpl.
    + now rewrite Nat.add_0_r.
    + rewrite IH. now rewrite Nat.add_succ_r.
Qed.

Lemma forEachIndexed_length {A B : Type} (f : A -> nat -> B) (l : list A) :
  forall start, List.length (forEachIndexed f start l) = List.length l.
Proof.
  induction l as [|a rest IH]; intros start; simpl; [reflexivity | now rewrite IH].
Qed.

Lemma forEachIndexed_ext {A B C : Type} (f : B -> nat -> C) (g : A -> nat -> C)
      (h : A -> B) (l : list A) :
  (forall a i, f (h a) i = g a i) ->
  forall start, forEachIndexed f start (map h l) = forEachIndexed g start l.
Proof.
  intros Hfg. induction l as [|a rest IH]; intros start; simpl.
  - reflexivity.
  - now rewrite Hfg, IH.
Qed.

(** A callback that makes [n] draws per element reads the draws
    [calls + n * k], ... for the element of index [k]. *)
Lemma forEachRandom_spec {A B : Type} (f : A -> nat -> B * nat) (n : nat) :
  (forall a c, snd (f a c) = (c + n)%nat) ->
  forall l calls,
    snd (forEachRandom f l calls) = (calls + n * List.length l)%nat
    /\ fst (forEachRandom f l calls)
       = forEachIndexed (fun a k => fst (f a (calls + n * k)%nat)) 0 l.
Proof.
  intros Hn l.
  assert (G : forall start calls,
             snd (forEachRandom f l (calls + n * start)) = (calls + n * (start + List.length l))%nat
             /\ fst (forEachRandom f l (calls + n * start))
                = forEachIndexed (fun a k => fst (f a (calls + n * k)%nat)) start l).
  { induction l as [|a rest IH]; intros start calls; simpl.
    - split; [f_equal; lia | reflexivity].
    - specialize (Hn a (calls + n * start)%nat).
      destruct (f a (calls + n * start)%nat) as [a' c'] eqn:E. simpl in Hn. subst c'.
      replace (calls + n * start + n)%nat with (calls + n * S start)%nat by lia.
      destruct (IH (S start) calls) as [IH1 IH2].
      destruct (forEachRandom f rest (calls + n * S start)) as [rest' c'']. simpl in *.
      split; [rewrite IH1; lia | now rewrite IH2]. }
  intros calls. specialize (G 0%nat calls).
  rewrite Nat.mul_0_r, Nat.add_0_r in G. exact G.
Qed.

Lemma forEachRandom_length {A B : Type} (f : A -> nat -> B * nat) (l : list A) :
  forall calls, List.length (fst (forEachRandom f l calls)) = List.length l.
Proof.
  induction l as [|a rest IH]; intros calls; simpl; [reflexivity|].
  destruct (f a calls) as [a' c']. specialize (IH c').
  destruct (forEachRandom f rest c'). simpl in *. now rewrite IH.
Qed.

Lemma forEachRandom_pure {A B : Type} (f : A -> nat -> B * nat) (g : A -> B) :
  (forall a c, f a c = (g a, c)) ->
  forall l calls, forEachRandom f l calls = (map g l, calls).
Proof.
  intros Hf. induction l as [|a rest IH]; intros calls; simpl.
  - reflexivity.
  - now rewrite Hf, IH.
Qed.

(** ** The 2D simulator: reset *)

Lemma ready_resetBoard (s : Sim2D.State) :
  Sim2D.ready (Sim2D.resetBoard s) = Sim2D.ready s.
Proof.
  unfold Sim2D.resetBoard. destruct (Sim2D.ready s) eqn:E; simpl; [|exact E].
  unfold Sim2D.ready in *. simpl. exact E.
Qed.

Lemma resetPiece_atOrigin (p : Sim2D.Piece) :
  atOrigin2D (Sim2D.resetPiece p)
  /\ Sim2D.originalX (Sim2D.resetPiece p) = Sim2D.originalX p
  /\ Sim2D.originalY (Sim2D.resetPiece p) = Sim2D.originalY p
  /\ Sim2D.pieceType (Sim2D.resetPiece p) = Sim2D.pieceType p.
Proof. unfold atOrigin2D. repeat split. Qed.

Lemma resetPiece_idempotent (p : Sim2D.Piece) :
  Sim2D.resetPiece (Sim2D.resetPiece p) = Sim2D.resetPiece p.
Proof. reflexivity. Qed.

Lemma resetSquare_idempotent (b : Matter.Body) (i : nat) :
  Sim2D.resetSquare (Sim2D.resetSquare b i) i = Sim2D.resetSquare b i.
Proof. reflexivity. Qed.

Lemma resetSquares_idempotent (l : list Matter.Body) :
  forall start,
    forEachIndexed Sim2D.resetSquare start (forEachIndexed Sim2D.resetSquare start l)
    = forEachIndexed Sim2D.resetSquare start l.
Proof.
  induction l as [|b rest IH]; intros start; simpl.
  - reflexivity.
  - now rewrite IH.
Qed.

Lemma resetBoard2D_idempotent (s : Sim2D.State) :
  Sim2D.resetBoard (Sim2D.resetBoard s) = Sim2D.resetBoard s.
Proof.
  unfold Sim2D.resetBoard at 1. rewrite ready_resetBoard.
  destruct (Sim2D.ready s) eqn:E; simpl; [|reflexivity].
  unfold Sim2D.resetBoard. rewrite E. simpl. f_equal.
  - destruct (Sim2D.boardRef s); [|reflexivity].
    now rewrite resetSquares_idempotent.
  - rewrite map_map. apply map_ext. intros p. apply resetPiece_idempotent.
Qed.

Lemma createPieces_at_origin :
  Forall (fun p => atOrigin2D p /\ Matter.isStatic (Sim2D.body p) = false)
         (Sim2D.createPieces 80).
Proof.
  unfold atOrigin2D. vm_compute. repeat constructor.
Qed.

(** ** The 3D scene: rendering *)

Lemma find_stale_key (s : Scene3D.State) (i : nat * nat) (t : Z) :
  keysCurrent s -> t <> Scene3D.resetTrigger s ->
  find (fun m => Scene3D.keyEqb (Scene3D.key m) (i, t)) (Scene3D.mounted s) = None.
Proof.
  unfold keysCurrent. intros Hk Ht.
  induction Hk as [|m rest Hm _ IH]; simpl; [reflexivity|].
  unfold Scene3D.keyEqb at 1. simpl.
  destruct (Z.eqb_spec (snd (Scene3D.key m)) t) as [E|_].
  - exfalso. apply Ht. now rewrite <- E.
  - rewrite Bool.andb_false_r. exact IH.
Qed.

Lemma shakeEffect_zero (random : nat -> Q) (m : Scene3D.Mounted) (calls : nat) :
  Scene3D.shakeEffect random 0 m calls = (m, calls).
Proof. reflexivity. Qed.

Lemma resetBoard3D_remounts (random : nat -> Q) (s : Scene3D.State) :
  keysCurrent s ->
  Scene3D.resetBoard random s
  = Scene3D.mkState 0 0 (Scene3D.resetTrigger s + 1)
      (map (fun pd => Scene3D.mount pd (Scene3D.resetTrigger s + 1)) Scene3D.newPieces)
      (Scene3D.randomCalls s).
Proof.
  intros Hk. unfold Scene3D.resetBoard, Scene3D.render.
  rewrite (forEachRandom_pure _ (fun pd => Scene3D.mount pd (Scene3D.resetTrigger s + 1))).
  - reflexivity.
  - intros pd c. unfold Scene3D.renderPiece.
    rewrite find_stale_key by (trivial; lia). reflexivity.
Qed.

Lemma mount_atOrigin (pd : Scene3D.PieceData) (t : Z) :
  atOrigin3D (Scene3D.mount pd t).
Proof. unfold atOrigin3D. repeat split. Qed.

Lemma keysCurrent_mounts (i f t : Z) (c : nat) :
  keysCurrent
    (Scene3D.mkState i f t (map (fun pd => Scene3D.mount pd t) Scene3D.newPieces) c).
Proof.
  unfold keysCurrent. cbn [Scene3D.mounted Scene3D.resetTrigger].
  apply Forall_forall. intros m Hm.
  apply in_map_iff in Hm. destruct Hm as [pd [<- _]]. reflexivity.
Qed.

Lemma forEachRandom_Forall {A B : Type} (f : A -> nat -> B * nat) (P : B -> Prop) :
  (forall a c, P (fst (f a c))) ->
  forall l calls, Forall P (fst (forEachRandom f l calls)).
Proof.
  intros Hf. induction l as [|a rest IH]; intros calls; simpl.
  - constructor.
  - specialize (Hf a calls). destruct (f a calls) as [a' c']. specialize (IH c').
    destruct (forEachRandom f rest c'). simpl in *. now constructor.
Qed.

Lemma render_fields (random : nat -> Q) (s : Scene3D.State) (i f t : Z) :
  Scene3D.shakeIntensity (Scene3D.render random s i f t) = i
  /\ Scene3D.shakeForce (Scene3D.render random s i f t) = f
  /\ Scene3D.resetTrigger (Scene3D.render random s i f t) = t
  /\ Scene3D.mounted (Scene3D.render random s i f t)
     = fst (forEachRandom (Scene3D.renderPiece random (Scene3D.mounted s)
                             (Scene3D.shakeForce s) f t)
                          Scene3D.newPieces (Scene3D.randomCalls s)).
Proof.
  unfold Scene3D.render.
  destruct (forEachRandom _ Scene3D.newPieces (Scene3D.randomCalls s)).
  repeat split.
Qed.

Lemma keyEqb_trigger (k : (nat * nat) * Z) (i : nat * nat) (t : Z) :
  Scene3D.keyEqb k (i, t) = true -> snd k = t.
Proof.
  unfold Scene3D.keyEqb. simpl. intros H.
  apply Bool.andb_true_iff in H. destruct H as [_ H]. now apply Z.eqb_eq.
Qed.

Lemma shakeEffect_key (random : nat -> Q) (f : Z) (m : Scene3D.Mounted) (c : nat) :
  Scene3D.key (fst (Scene3D.shakeEffect random f m c)) = Scene3D.key m.
Proof.
  unfold Scene3D.shakeEffect. destruct (Scene3D.shakeImpulse random f c); reflexivity.
Qed.

Lemma render_keysCurrent (random : nat -> Q) (s : Scene3D.State) (i f t : Z) :
  keysCurrent (Scene3D.render random s i f t).
Proof.
  unfold keysCurrent.
  destruct (render_fields random s i f t) as [_ [_ [-> ->]]].
  apply forEachRandom_Forall. intros pd c. unfold Scene3D.renderPiece.
  destruct (find _ (Scene3D.mounted s)) as [m|] eqn:E.
  - apply find_some in E. destruct E as [_ E]. apply keyEqb_trigger in E.
    destruct (f =? Scene3D.shakeForce s)%Z; [exact E|].
    rewrite shakeEffect_key. exact E.
  - rewrite shakeEffect_key. reflexivity.
Qed.

(** ** The 2D simulator: shake *)

Lemma shakeBoard2D_ready (random : nat -> Q) (s : Sim2D.State) :
  Sim2D.ready s = true ->
  let intensity := (Sim2D.shakeIntensity s + 1)%Z in
  let calls := Sim2D.randomCalls s in
  let n := List.length (Sim2D.piecesRef s) in
  Sim2D.shakeBoard random s
  = Sim2D.mkState (Sim2D.windowMatter s) (Sim2D.engineRef s)
      (match Sim2D.boardRef s with
       | Some squares =>
           Some (if (5 <? intensity)%Z
                 then forEachIndexed
                        (fun b k => fst (Sim2D.shakeSquare random intensity b
                                           (calls + 2 * n + 2 * k)%nat)) 0 squares
                 else squares)
       | None => None
       end)
      (forEachIndexed
         (fun p k => fst (Sim2D.shakePiece random intensity p (calls + 2 * k)%nat))
         0 (Sim2D.piecesRef s))
      (Sim2D.isLoaded s)
      (Z.min (Sim2D.shakeIntensity s + 1) 10)
      (match Sim2D.boardRef s with
       | Some squares =>
           if (5 <? intensity)%Z then (calls + 2 * n + 2 * List.length squares)%nat
           else (calls + 2 * n)%nat
       | None => (calls + 2 * n)%nat
       end).
Proof.
  intros Hr intensity calls n. unfold Sim2D.shakeBoard. rewrite Hr. cbn [negb].
  fold intensity. fold calls.
  destruct (forEachRandom_spec (Sim2D.shakePiece random intensity) 2
              (fun a c => eq_sym (Nat.add_comm c 2)) (Sim2D.piecesRef s) calls) as [Hc Hp].
  destruct (forEachRandom (Sim2D.shakePiece random intensity) (Sim2D.piecesRef s) calls)
    as [pieces' calls1]. cbn [fst snd] in Hc, Hp. subst pieces' calls1. fold n.
  destruct (Sim2D.boardRef s) as [squares|]; [|reflexivity].
  destruct (5 <? intensity)%Z; [|reflexivity].
  destruct (forEachRandom_spec (Sim2D.shakeSquare random intensity) 2
              (fun a c => eq_sym (Nat.add_comm c 2)) squares (calls + 2 * n)%nat) as [Hc Hq].
  destruct (forEachRandom (Sim2D.shakeSquare random intensity) squares (calls + 2 * n)%nat)
    as [squares' calls2]. cbn [fst snd] in Hc, Hq. subst squares' calls2. reflexivity.
Qed.

Lemma shakeBoard2D_unready (random : nat -> Q) (s : Sim2D.State) :
  Sim2D.ready s = false -> Sim2D.shakeBoard random s = s.
Proof. intros Hr. unfold Sim2D.shakeBoard. now rewrite Hr. Qed.

Lemma shakeBoard2D_intensity (random : nat -> Q) (s : Sim2D.State) :
  Sim2D.shakeIntensity (Sim2D.shakeBoard random s)
  = if Sim2D.ready s then Z.min (Sim2D.shakeIntensity s + 1) 10 else Sim2D.shakeIntensity s.
Proof.
  destruct (Sim2D.ready s) eqn:E.
  - now rewrite shakeBoard2D_ready.
  - now rewrite shakeBoard2D_unready.
Qed.

Lemma ready_shakeBoard (random : nat -> Q) (s : Sim2D.State) :
  Sim2D.ready (Sim2D.shakeBoard random s) = Sim2D.ready s.
Proof.
  destruct (Sim2D.ready s) eqn:E.
  - rewrite shakeBoard2D_ready by exact E. exact E.
  - now rewrite shakeBoard2D_unready.
Qed.

Lemma resetBoard2D_intensity (s : Sim2D.State) :
  Sim2D.shakeIntensity (Sim2D.resetBoard s)
  = if Sim2D.ready s then 0%Z else Sim2D.shakeIntensity s.
Proof. unfold Sim2D.resetBoard. destruct (Sim2D.ready s); reflexivity. Qed.

Lemma scriptOnload_intensity (canvas : bool) (s : Sim2D.State) :
  Sim2D.shakeIntensity (Sim2D.scriptOnload canvas s) = Sim2D.shakeIntensity s
  /\ (Sim2D.ready s = true -> Sim2D.ready (Sim2D.scriptOnload canvas s) = true).
Proof.
  unfold Sim2D.scriptOnload, Sim2D.initializePhysics. simpl.
  destruct canvas; simpl; split; try reflexivity.
  unfold Sim2D.ready. simpl. destruct (Sim2D.engineRef s); [reflexivity | discriminate].
Qed.

Lemma inv2D_run (random : nat -> Q) (s : Sim2D.State) (c : Sim2D.Command) :
  inv2D s -> inv2D (Sim2D.run random s c).
Proof.
  unfold inv2D. intros [Hrange Hready]. destruct c as [canvas| |]; simpl.
  - destruct (scriptOnload_intensity canvas s) as [-> Hr]. split; [exact Hrange|].
    destruct Hready as [H|H]; [now left | right; now apply Hr].
  - rewrite shakeBoard2D_intensity, ready_shakeBoard.
    destruct (Sim2D.ready s); [split; [lia | now right]|].
    split; [exact Hrange | exact Hready].
  - rewrite resetBoard2D_intensity, ready_resetBoard.
    destruct (Sim2D.ready s); [split; [lia | now left]|].
    split; [exact Hrange | exact Hready].
Qed.

Lemma inv2D_runAll (random : nat -> Q) (cs : list Sim2D.Command) :
  forall s, inv2D s -> inv2D (Sim2D.runAll random s cs).
Proof.
  induction cs as [|c cs IH]; intros s Hs; simpl; [exact Hs|].
  apply IH. now apply inv2D_run.
Qed.

Lemma inv2D_initial : inv2D Sim2D.initialState.
Proof. unfold inv2D. simpl. split; [lia | now left]. Qed.

(** ** The 3D scene: intensity *)

Lemma intensity3D_run (random : nat -> Q) (s : Scene3D.State) (c : Scene3D.Command) :
  (0 <= Scene3D.shakeIntensity s <= 10)%Z ->
  (0 <= Scene3D.shakeIntensity (Scene3D.run random s c) <= 10)%Z.
Proof.
  intros H. destruct c; simpl;
    unfold Scene3D.shakeBoard, Scene3D.shakeTimeout, Scene3D.resetBoard;
    match goal with
    | |- context [Scene3D.render random s ?i ?f ?t] =>
        destruct (render_fields random s i f t) as [-> _]
    end; lia.
Qed.

Lemma intensity3D_runAll (random : nat -> Q) (cs : list Scene3D.Command) :
  forall s, (0 <= Scene3D.shakeIntensity s <= 10)%Z ->
            (0 <= Scene3D.shakeIntensity (Scene3D.runAll random s cs) <= 10)%Z.
Proof.
  induction cs as [|c cs IH]; intros s Hs; simpl; [exact Hs|].
  apply IH. now apply intensity3D_run.
Qed.

Lemma Forall2_map_right {A B : Type} (R : A -> B -> Prop) (f : A -> B) (l : list A) :
  (forall a, R a (f a)) -> Forall2 R l (map f l).
Proof.
  intros H. induction l as [|a rest IH]; simpl; constructor; auto.
Qed.

(** ** Reset restores the pieces *)

(** C1.  After [resetBoard], every piece body is back at the origin recorded
    when it was created, with zero linear velocity, zero angular velocity and
    angle 0, and the cumulative shake intensity is 0.  In the 2D simulator
    this is what the handler does once the engine exists (its guard); the
    origin fields themselves are untouched, and [createPieces] records the
    creation position in them.  In the 3D scene the reset re-mounts every
    piece, so each body is a fresh one at the position of its props. *)
Theorem reset_restores_every_piece :
  (forall s : Sim2D.State,
      Sim2D.ready s = true ->
      Sim2D.shakeIntensity (Sim2D.resetBoard s) = 0%Z
      /\ Forall2 (fun p p' =>
                    Sim2D.originalX p' = Sim2D.originalX p
                    /\ Sim2D.originalY p' = Sim2D.originalY p
                    /\ atOrigin2D p')
                 (Sim2D.piecesRef s) (Sim2D.piecesRef (Sim2D.resetBoard s)))
  /\ Forall atOrigin2D (Sim2D.createPieces 80)
  /\ (forall (random : nat -> Q) (s : Scene3D.State),
         keysCurrent s ->
         Scene3D.shakeIntensity (Scene3D.resetBoard random s) = 0%Z
         /\ map Scene3D.props (Scene3D.mounted (Scene3D.resetBoard random s))
            = Scene3D.newPieces
         /\ Forall atOrigin3D (Scene3D.mounted (Scene3D.resetBoard random s))).
Proof.
  split; [|split].
  - intros s Hr. unfold Sim2D.resetBoard. rewrite Hr. cbn [negb Sim2D.shakeIntensity
      Sim2D.piecesRef]. split; [reflexivity|].
    apply Forall2_map_right. intros p.
    destruct (resetPiece_atOrigin p) as [H0 [Hx [Hy _]]]. auto.
  - eapply Forall_impl; [|exact createPieces_at_origin]. intros p [H _]. exact H.
  - intros random s Hk. rewrite resetBoard3D_remounts by exact Hk.
    cbn [Scene3D.shakeIntensity Scene3D.mounted]. split; [reflexivity|]. split.
    + rewrite map_map. cbn [Scene3D.mount Scene3D.props]. apply map_id.
    + apply Forall_forall. intros m Hm. apply in_map_iff in Hm.
      destruct Hm as [pd [<- _]]. apply mount_atOrigin.
Qed.

Lemma reset_restores_every_piece_witness :
  (Sim2D.ready (shaken2D 3) = true
   /\ Sim2D.shakeIntensity (Sim2D.resetBoard (shaken2D 3)) = 0%Z
   /\ Forall2 (fun p p' =>
                 Sim2D.originalX p' = Sim2D.originalX p
                 /\ Sim2D.originalY p' = Sim2D.originalY p
                 /\ atOrigin2D p')
              (Sim2D.piecesRef (shaken2D 3))
              (Sim2D.piecesRef (Sim2D.resetBoard (shaken2D 3))))
  /\ (keysCurrent scene3D
      /\ Scene3D.shakeIntensity (Scene3D.resetBoard zeroDraws scene3D) = 0%Z
      /\ Forall atOrigin3D (Scene3D.mounted (Scene3D.resetBoard zeroDraws scene3D))).
Proof.
  assert (R2 : Sim2D.ready (shaken2D 3) = true) by (vm_compute; reflexivity).
  assert (K3 : keysCurrent scene3D) by (unfold keysCurrent; vm_compute; repeat constructor).
  destruct reset_restores_every_piece as [H2 [_ H3]].
  split.
  - split; [exact R2 | exact (H2 (shaken2D 3) R2)].
  - destruct (H3 zeroDraws scene3D K3) as [Hi [_ Ho]]. split; [exact K3|].
    split; [exact Hi | exact Ho].
Defined.

(** ** The intensity stays between 0 and 10 *)

(** C2.  The cumulative shake intensity starts at 0 and, after any sequence
    of commands, is an integer between 0 and 10: a shake sets it to
    min(intensity + 1, 10), a reset sets it to 0.  (In the 2D simulator both
    handlers do nothing until the engine exists; the intensity is 0 then.) *)
Theorem shake_intensity_in_range (random : nat -> Q) :
  (Sim2D.shakeIntensity Sim2D.initialState = 0%Z
   /\ forall cs : list Sim2D.Command,
       (0 <= Sim2D.shakeIntensity (Sim2D.runAll random Sim2D.initialState cs) <= 10)%Z
       /\ Sim2D.shakeIntensity
            (Sim2D.resetBoard (Sim2D.runAll random Sim2D.initialState cs)) = 0%Z)
  /\ (forall s : Sim2D.State,
         Sim2D.shakeIntensity (Sim2D.shakeBoard random s)
         = if Sim2D.ready s then Z.min (Sim2D.shakeIntensity s + 1) 10
           else Sim2D.shakeIntensity s)
  /\ (Scene3D.shakeIntensity (Scene3D.initialState random) = 0%Z
      /\ forall cs : list Scene3D.Command,
          (0 <= Scene3D.shakeIntensity
                  (Scene3D.runAll random (Scene3D.initialState random) cs) <= 10)%Z)
  /\ (forall s : Scene3D.State,
         Scene3D.shakeIntensity (Scene3D.shakeBoard random s)
         = Z.min (Scene3D.shakeIntensity s + 1) 10
         /\ Scene3D.shakeIntensity (Scene3D.resetBoard random s) = 0%Z).
Proof.
  assert (I3 : Scene3D.shakeIntensity (Scene3D.initialState random) = 0%Z).
  { unfold Scene3D.initialState. now destruct (render_fields random
      (Scene3D.mkState 0 0 0 [] 0) 0 0 0) as [-> _]. }
  split; [split; [reflexivity|] | split; [|split; [split; [exact I3|] |]]].
  - intros cs. destruct (inv2D_runAll random cs _ inv2D_initial) as [Hrange Hready].
    split; [exact Hrange|]. rewrite resetBoard2D_intensity.
    destruct (Sim2D.ready _); [reflexivity|].
    destruct Hready as [H|H]; [exact H | discriminate].
  - intros s. apply shakeBoard2D_intensity.
  - intros cs. apply intensity3D_runAll. rewrite I3. lia.
  - intros s. unfold Scene3D.shakeBoard, Scene3D.resetBoard. split.
    + now destruct (render_fields random s (Z.min (Scene3D.shakeIntensity s + 1) 10)
                      (Z.min (Scene3D.shakeIntensity s + 1) 10) (Scene3D.resetTrigger s))
        as [-> _].
    + now destruct (render_fields random s 0 0 (Scene3D.resetTrigger s + 1)) as [-> _].
Qed.

(** ** Reset is idempotent *)

(** C7.  Resetting twice in a row gives the same state as resetting once.
    In the 2D simulator the two states are equal as a whole.  In the 3D
    scene the second reset re-mounts the pieces under new keys, and their
    bodies, their props and the intensity and force are the same. *)
Theorem reset_idempotent :
  (forall s : Sim2D.State, Sim2D.resetBoard (Sim2D.resetBoard s) = Sim2D.resetBoard s)
  /\ (forall (random : nat -> Q) (s : Scene3D.State),
         keysCurrent s ->
         let once := Scene3D.resetBoard random s in
         let twice := Scene3D.resetBoard random once in
         map Scene3D.cylinder (Scene3D.mounted twice)
         = map Scene3D.cylinder (Scene3D.mounted once)
         /\ map Scene3D.props (Scene3D.mounted twice)
            = map Scene3D.props (Scene3D.mounted once)
         /\ Scene3D.shakeIntensity twice = Scene3D.shakeIntensity once
         /\ Scene3D.shakeForce twice = Scene3D.shakeForce once).
Proof.
  split; [exact resetBoard2D_idempotent|].
  intros random s Hk once twice. subst twice once.
  rewrite (resetBoard3D_remounts random (Scene3D.resetBoard random s))
    by apply render_keysCurrent.
  rewrite (resetBoard3D_remounts random s) by exact Hk.
  cbn [Scene3D.mounted Scene3D.shakeIntensity Scene3D.shakeForce Scene3D.resetTrigger].
  rewrite !map_map. repeat split.
Qed.

Lemma reset_idempotent_witness :
  keysCurrent scene3D
  /\ map Scene3D.cylinder
       (Scene3D.mounted (Scene3D.resetBoard zeroDraws (Scene3D.resetBoard zeroDraws scene3D)))
     = map Scene3D.cylinder (Scene3D.mounted (Scene3D.resetBoard zeroDraws scene3D)).
Proof.
  assert (K3 : keysCurrent scene3D) by (unfold keysCurrent; vm_compute; repeat constructor).
  split; [exact K3|].
  exact (proj1 (proj2 reset_idempotent zeroDraws scene3D K3)).
Defined.

(** ** Reset restores the board squares *)

Lemma resetSquares_positions (l : list Matter.Body) :
  forall start,
    map Matter.position (forEachIndexed Sim2D.resetSquare start l)
    = map gridPosition (seq start (List.length l)).
Proof.
  induction l as [|b rest IH]; intros start; simpl; [reflexivity|].
  now rewrite IH.
Qed.

Lemma resetSquares_ignore_position (l l' : list Matter.Body) :
  Forall2 sameButPosition l l' ->
  forall start,
    forEachIndexed Sim2D.resetSquare start l' = forEachIndexed Sim2D.resetSquare start l.
Proof.
  induction 1 as [|b b' l l' Hb _ IH]; intros start; simpl; [reflexivity|].
  rewrite IH. f_equal. unfold sameButPosition in Hb. now rewrite <- Hb.
Qed.

Lemma translate_sameButPosition (b : Matter.Body) (t : Matter.Vector) :
  sameButPosition b (Matter.translate b t).
Proof. destruct b. reflexivity. Qed.

Lemma sameButPosition_refl (b : Matter.Body) : sameButPosition b b.
Proof. destruct b. reflexivity. Qed.

Lemma Forall2_forEachIndexed {A B : Type} (R : A -> B -> Prop) (f : A -> nat -> B)
      (l : list A) :
  (forall a k, R a (f a k)) -> forall start, Forall2 R l (forEachIndexed f start l).
Proof.
  intros H. induction l as [|a rest IH]; intros start; simpl; constructor; auto.
Qed.

Lemma Forall2_same {A : Type} (R : A -> A -> Prop) (l : list A) :
  (forall a, R a a) -> Forall2 R l l.
Proof. intros H. induction l; constructor; auto. Qed.

(** A shake moves board squares, at most: every other field is kept. *)
Lemma shakeBoard2D_squares (random : nat -> Q) (s : Sim2D.State) :
  Forall2 sameButPosition (squaresOf s) (squaresOf (Sim2D.shakeBoard random s)).
Proof.
  destruct (Sim2D.ready s) eqn:E.
  - rewrite shakeBoard2D_ready by exact E. unfold squaresOf. cbn [Sim2D.boardRef].
    destruct (Sim2D.boardRef s) as [squares|]; [|constructor].
    destruct (5 <? Sim2D.shakeIntensity s + 1)%Z.
    + apply Forall2_forEachIndexed. intros b k. apply translate_sameButPosition.
    + apply Forall2_same, sameButPosition_refl.
  - rewrite shakeBoard2D_unready by exact E. apply Forall2_same, sameButPosition_refl.
Qed.

Lemma createSquares_fixed :
  forEachIndexed Sim2D.resetSquare 0 (Sim2D.createSquares 80) = Sim2D.createSquares 80.
Proof. vm_compute. reflexivity. Qed.

Lemma resetBoard2D_squares (s : Sim2D.State) :
  Sim2D.ready s = true ->
  squaresOf (Sim2D.resetBoard s) = forEachIndexed Sim2D.resetSquare 0 (squaresOf s)
  /\ (forall squares, Sim2D.boardRef s = Some squares ->
        Sim2D.boardRef (Sim2D.resetBoard s)
        = Some (forEachIndexed Sim2D.resetSquare 0 squares)).
Proof.
  intros Hr. unfold squaresOf, Sim2D.resetBoard. rewrite Hr. cbn [negb Sim2D.boardRef].
  split.
  - destruct (Sim2D.boardRef s); reflexivity.
  - intros squares ->. reflexivity.
Qed.

(** C9.  [resetBoard] also puts every board square back on its grid
    position, computed from the square's index (column = index mod 8,
    row = index div 8, centre of that 80-unit square).  These are the
    positions the squares were created at, so whatever translation shakes
    applied to the squares is undone. *)
Theorem reset_restores_board_squares :
  (forall s : Sim2D.State,
      Sim2D.ready s = true ->
      map Matter.position (squaresOf (Sim2D.resetBoard s))
      = map gridPosition (seq 0 (List.length (squaresOf s))))
  /\ (forall index : nat,
         vectorEq (gridPosition index) (squareCentre (index / 8) (index mod 8)))
  /\ map Matter.position (Sim2D.createSquares 80) = map gridPosition (seq 0 64)
  /\ (forall (s : Sim2D.State) (squares : list Matter.Body),
         Sim2D.ready s = true ->
         Sim2D.boardRef s = Some squares ->
         Forall2 sameButPosition (Sim2D.createSquares 80) squares ->
         Sim2D.boardRef (Sim2D.resetBoard s) = Some (Sim2D.createSquares 80))
  /\ (forall (random : nat -> Q) (s : Sim2D.State),
         Sim2D.ready s = true ->
         Sim2D.boardRef s = Some (Sim2D.createSquares 80) ->
         Sim2D.boardRef (Sim2D.resetBoard (Sim2D.shakeBoard random s))
         = Some (Sim2D.createSquares 80)).
Proof.
  assert (G : forall (s : Sim2D.State) (squares : list Matter.Body),
             Sim2D.ready s = true ->
             Sim2D.boardRef s = Some squares ->
             Forall2 sameButPosition (Sim2D.createSquares 80) squares ->
             Sim2D.boardRef (Sim2D.resetBoard s) = Some (Sim2D.createSquares 80)).
  { intros s squares Hr Hb Hsame.
    destruct (resetBoard2D_squares s Hr) as [_ H]. rewrite (H squares Hb).
    now rewrite (resetSquares_ignore_position _ _ Hsame), createSquares_fixed. }
  split; [|split; [|split; [|split]]].
  - intros s Hr. destruct (resetBoard2D_squares s Hr) as [-> _].
    apply resetSquares_positions.
  - intros index. unfold vectorEq, gridPosition, squareCentre. simpl. split; field.
  - vm_compute. reflexivity.
  - exact G.
  - intros random s Hr Hb.
    pose proof (shakeBoard2D_squares random s) as Hsame.
    unfold squaresOf in Hsame. rewrite Hb in Hsame.
    destruct (Sim2D.boardRef (Sim2D.shakeBoard random s)) as [squares|] eqn:E.
    + apply (G _ squares); [now rewrite ready_shakeBoard | exact E | exact Hsame].
    + inversion Hsame.
Qed.

Lemma reset_restores_board_squares_witness :
  Sim2D.ready (shaken2D 8) = true
  /\ map Matter.position (squaresOf (Sim2D.resetBoard (shaken2D 8)))
     = map gridPosition (seq 0 (List.length (squaresOf (shaken2D 8))))
  /\ Sim2D.boardRef (shaken2D 8) = Some (squaresOf (shaken2D 8))
  /\ Forall2 sameButPosition (Sim2D.createSquares 80) (squaresOf (shaken2D 8))
  /\ Sim2D.boardRef (Sim2D.resetBoard (shaken2D 8)) = Some (Sim2D.createSquares 80)
  /\ Sim2D.ready (shaken2D 5) = true
  /\ Sim2D.boardRef (shaken2D 5) = Some (Sim2D.createSquares 80)
  /\ Sim2D.boardRef (Sim2D.resetBoard (Sim2D.shakeBoard zeroDraws (shaken2D 5)))
     = Some (Sim2D.createSquares 80).
Proof.
  assert (R8 : Sim2D.ready (shaken2D 8) = true) by (vm_compute; reflexivity).
  assert (B8 : Sim2D.boardRef (shaken2D 8) = Some (squaresOf (shaken2D 8)))
    by (vm_compute; reflexivity).
  assert (S8 : Forall2 sameButPosition (Sim2D.createSquares 80) (squaresOf (shaken2D 8)))
    by (vm_compute; repeat constructor).
  assert (R5 : Sim2D.ready (shaken2D 5) = true) by (vm_compute; reflexivity).
  assert (B5 : Sim2D.boardRef (shaken2D 5) = Some (Sim2D.createSquares 80))
    by (vm_compute; reflexivity).
  destruct reset_restores_board_squares as [H1 [_ [_ [H4 H5]]]].
  split; [exact R8|]. split; [exact (H1 _ R8)|]. split; [exact B8|].
  split; [exact S8|]. split; [exact (H4 _ _ R8 B8 S8)|].
  split; [exact R5|]. split; [exact B5|].
  exact (H5 zeroDraws _ R5 B5).
Defined.

(** ** World setup *)

Lemma initialState3D_mounts (random : nat -> Q) :
  Scene3D.initialState random
  = Scene3D.mkState 0 0 0 (map (fun pd => Scene3D.mount pd 0) Scene3D.newPieces) 0.
Proof.
  unfold Scene3D.initialState, Scene3D.render. cbn [Scene3D.mounted Scene3D.randomCalls].
  now rewrite (forEachRandom_pure _ (fun pd => Scene3D.mount pd 0)).
Qed.

(** C8.  Setup creates one dynamic piece body for each character of the
    8x8 starting layout other than ".", 32 in all, standing on the centre of
    that character's square; upper-case codes are white, lower-case codes
    are the other side.  The layout is a constant: every session that loads
    gets the same pieces, and the 3D scene mounts the same 32 entries. *)
Theorem setup_creates_starting_layout :
  (List.length (Sim2D.createPieces 80) = 32%nat
   /\ (forall row col : nat,
          (row < 8)%nat -> (col < 8)%nat ->
          List.length (filter (standsOn2D row col) (Sim2D.createPieces 80))
          = if String.eqb (cell row col) "." then 0%nat else 1%nat)
   /\ Forall (fun p =>
                Matter.isStatic (Sim2D.body p) = false
                /\ Sim2D.isWhite p = isUpperCode (Sim2D.pieceType p)
                /\ negb (Sim2D.isWhite p) = isLowerCode (Sim2D.pieceType p)
                /\ atOrigin2D p)
             (Sim2D.createPieces 80)
   /\ (forall s : Sim2D.State,
          Sim2D.piecesRef (Sim2D.scriptOnload true s) = Sim2D.createPieces 80))
  /\ (List.length Scene3D.newPieces = 32%nat
      /\ (forall row col : nat,
             (row < 8)%nat -> (col < 8)%nat ->
             List.length (filter (standsOn3D row col) Scene3D.newPieces)
             = if String.eqb (cell row col) "." then 0%nat else 1%nat)
      /\ Forall (fun pd =>
                   Scene3D.isWhite pd = isUpperCode (Scene3D.piece pd)
                   /\ negb (Scene3D.isWhite pd) = isLowerCode (Scene3D.piece pd))
                Scene3D.newPieces
      /\ (forall random : nat -> Q,
             map Scene3D.props (Scene3D.mounted (Scene3D.initialState random))
             = Scene3D.newPieces
             /\ Forall (fun m => atOrigin3D m
                                 /\ Cannon.bodyType (Scene3D.cylinder m) = Cannon.Dynamic)
                       (Scene3D.mounted (Scene3D.initialState random)))).
Proof.
  split; split; [| split; [| split] | | split; [| split]].
  - vm_compute. reflexivity.
  - intros row col Hr Hc.
    do 8 (destruct row as [|row];
          [do 8 (destruct col as [|col]; [vm_compute; reflexivity|]); exfalso; lia|]).
    exfalso; lia.
  - unfold atOrigin2D. vm_compute. repeat constructor.
  - intros s. reflexivity.
  - vm_compute. reflexivity.
  - intros row col Hr Hc.
    do 8 (destruct row as [|row];
          [do 8 (destruct col as [|col]; [vm_compute; reflexivity|]); exfalso; lia|]).
    exfalso; lia.
  - vm_compute. repeat constructor.
  - intros random. rewrite initialState3D_mounts. cbn [Scene3D.mounted]. split.
    + rewrite map_map. cbn [Scene3D.mount Scene3D.props]. apply map_id.
    + apply Forall_forall. intros m Hm. apply in_map_iff in Hm.
      destruct Hm as [pd [<- _]]. split; [apply mount_atOrigin | reflexivity].
Qed.

Lemma setup_creates_starting_layout_witness :
  ((7 < 8)%nat /\ (4 < 8)%nat
   /\ List.length (filter (standsOn2D 7 4) (Sim2D.createPieces 80)) = 1%nat)
  /\ ((3 < 8)%nat /\ (2 < 8)%nat
      /\ List.length (filter (standsOn3D 3 2) Scene3D.newPieces) = 0%nat).
Proof.
  destruct setup_creates_starting_layout as [[_ [H2 _]] [_ [H3 _]]].
  split.
  - split; [lia|]. split; [lia|]. exact (H2 7%nat 4%nat ltac:(lia) ltac:(lia)).
  - split; [lia|]. split; [lia|]. exact (H3 3%nat 2%nat ltac:(lia) ltac:(lia)).
Defined.

(** ** What a shake does to the bodies *)

Lemma unitDraws_zero : unitDraws zeroDraws.
Proof. intros n. unfold zeroDraws. split; [apply Qle_refl | reflexivity]. Qed.

Lemma unitDraws_high : unitDraws highDraws.
Proof. intros n. unfold highDraws. split; [discriminate | reflexivity]. Qed.

Lemma shakePiece_sameButForce (random : nat -> Q) (i : Z) (p : Sim2D.Piece) (c : nat) :
  sameButForce p (fst (Sim2D.shakePiece random i p c)).
Proof. unfold sameButForce. repeat split. Qed.

Lemma scaled_draw_bound (r k c : Q) :
  0 <= r -> r < 1 -> 0 <= k -> 0 <= c ->
  Qabs ((r - 0.5) * k * c) <= 0.5 * c * k.
Proof.
  intros H0 H1 Hk Hc. apply Qabs_Qle_condition.
  assert (Hkc : 0 <= k * c) by (apply Qmult_le_0_compat; assumption).
  split; nra.
Qed.

Lemma added_then_removed (a f : Q) : a + f - a == f.
Proof. ring. Qed.

Lemma shakePiece_bound (random : nat -> Q) (i : Z) (p : Sim2D.Piece) (c : nat) :
  unitDraws random -> (0 <= i)%Z ->
  within (0.005 * inject_Z i) (forceAdded p (fst (Sim2D.shakePiece random i p c))).
Proof.
  intros Hu Hi. unfold within, forceAdded.
  cbn [fst Sim2D.shakePiece Sim2D.onBody Sim2D.body Matter.applyForce Matter.force
       Matter.x Matter.y].
  rewrite !added_then_removed.
  assert (Hq : 0 <= inject_Z i) by (unfold Qle; simpl; lia).
  assert (Hb : 0.005 * inject_Z i == 0.5 * 0.01 * inject_Z i) by ring.
  rewrite Hb.
  destruct (Hu c) as [H0 H1]. destruct (Hu (S c)) as [H0' H1'].
  split; apply scaled_draw_bound; try assumption; discriminate.
Qed.

Lemma shakeSquare_bound (random : nat -> Q) (i : Z) (b : Matter.Body) (c : nat) :
  unitDraws random -> (5 < i)%Z ->
  within (inject_Z i - 5) (offsetOf b (fst (Sim2D.shakeSquare random i b c))).
Proof.
  intros Hu Hi. unfold within, offsetOf.
  cbn [fst Sim2D.shakeSquare Matter.translate Matter.setPosition Matter.position
       Matter.x Matter.y].
  rewrite !added_then_removed.
  assert (Hq : 0 <= inject_Z i - 5).
  { assert (H5 : 5 <= inject_Z i) by (unfold Qle; simpl; lia). lra. }
  assert (Hb : forall k, 0.5 * 2 * k == k) by (intros; ring).
  destruct (Hu c) as [H0 H1]. destruct (Hu (S c)) as [H0' H1'].
  split; rewrite <- (Hb (inject_Z i - 5)) at 2;
    apply scaled_draw_bound; try assumption; discriminate.
Qed.

(** C10.  Every random force a 2D shake draws is bounded: each component
    of the force added to a piece is at most 0.005 times the intensity used
    (the intensity before the shake plus one) in absolute value; the board
    squares are left alone unless that intensity exceeds 5, and then each
    component of a square's translation is at most (intensity - 5) in
    absolute value. *)
Theorem shake_forces_bounded (random : nat -> Q) (s : Sim2D.State) :
  unitDraws random ->
  Sim2D.ready s = true ->
  (0 <= Sim2D.shakeIntensity s)%Z ->
  let intensity := (Sim2D.shakeIntensity s + 1)%Z in
  Forall2 (fun p p' => within (0.005 * inject_Z intensity) (forceAdded p p'))
          (Sim2D.piecesRef s) (Sim2D.piecesRef (Sim2D.shakeBoard random s))
  /\ ((intensity <= 5)%Z ->
      Sim2D.boardRef (Sim2D.shakeBoard random s) = Sim2D.boardRef s)
  /\ ((5 < intensity)%Z ->
      Forall2 (fun b b' => within (inject_Z intensity - 5) (offsetOf b b'))
              (squaresOf s) (squaresOf (Sim2D.shakeBoard random s))).
Proof.
  intros Hu Hr Hi intensity. rewrite shakeBoard2D_ready by exact Hr.
  unfold squaresOf. cbn [Sim2D.piecesRef Sim2D.boardRef]. fold intensity.
  split; [|split].
  - apply Forall2_forEachIndexed. intros p k. apply shakePiece_bound; [exact Hu | lia].
  - intros Hle. destruct (Sim2D.boardRef s); [|reflexivity].
    destruct (Z.ltb_spec 5 intensity); [lia | reflexivity].
  - intros Hlt. destruct (Sim2D.boardRef s) as [squares|]; [|constructor].
    destruct (Z.ltb_spec 5 intensity); [|lia].
    apply Forall2_forEachIndexed. intros b k. now apply shakeSquare_bound.
Qed.

Lemma shake_forces_bounded_witness :
  (unitDraws highDraws /\ Sim2D.ready (shaken2D 2) = true
   /\ (0 <= Sim2D.shakeIntensity (shaken2D 2))%Z
   /\ (Sim2D.shakeIntensity (shaken2D 2) + 1 <= 5)%Z
   /\ Forall2 (fun p p' => within (0.005 * inject_Z (Sim2D.shakeIntensity (shaken2D 2) + 1))
                                  (forceAdded p p'))
              (Sim2D.piecesRef (shaken2D 2))
              (Sim2D.piecesRef (Sim2D.shakeBoard highDraws (shaken2D 2)))
   /\ Sim2D.boardRef (Sim2D.shakeBoard highDraws (shaken2D 2))
      = Sim2D.boardRef (shaken2D 2))
  /\ (Sim2D.ready (shaken2D 7) = true
      /\ (0 <= Sim2D.shakeIntensity (shaken2D 7))%Z
      /\ (5 < Sim2D.shakeIntensity (shaken2D 7) + 1)%Z
      /\ Forall2 (fun b b' => within (inject_Z (Sim2D.shakeIntensity (shaken2D 7) + 1) - 5)
                                     (offsetOf b b'))
                 (squaresOf (shaken2D 7))
                 (squaresOf (Sim2D.shakeBoard highDraws (shaken2D 7)))).
Proof.
  assert (R2 : Sim2D.ready (shaken2D 2) = true) by (vm_compute; reflexivity).
  assert (R7 : Sim2D.ready (shaken2D 7) = true) by (vm_compute; reflexivity).
  assert (I2 : Sim2D.shakeIntensity (shaken2D 2) = 2%Z) by (vm_compute; reflexivity).
  assert (I7 : Sim2D.shakeIntensity (shaken2D 7) = 7%Z) by (vm_compute; reflexivity).
  assert (P2 : (0 <= Sim2D.shakeIntensity (shaken2D 2))%Z) by (rewrite I2; lia).
  assert (P7 : (0 <= Sim2D.shakeIntensity (shaken2D 7))%Z) by (rewrite I7; lia).
  assert (L2 : (Sim2D.shakeIntensity (shaken2D 2) + 1 <= 5)%Z) by (rewrite I2; lia).
  assert (L7 : (5 < Sim2D.shakeIntensity (shaken2D 7) + 1)%Z) by (rewrite I7; lia).
  assert (U : unitDraws highDraws)
    by (intros n; split; [discriminate | reflexivity]).
  destruct (shake_forces_bounded highDraws (shaken2D 2) U R2 P2) as [F2 [B2 _]].
  destruct (shake_forces_bounded highDraws (shaken2D 7) U R7 P7) as [_ [_ S7]].
  split.
  - split; [exact U|]. split; [exact R2|]. split; [exact P2|]. split; [exact L2|].
    split; [exact F2 | exact (B2 L2)].
  - split; [exact R7|]. split; [exact P7|]. split; [exact L7|]. exact (S7 L7).
Defined.

(** C5, as the code has it.  A shake never touches the walls.  It leaves
    every board square as it is while the intensity used (the intensity
    before the shake plus one) is at most 5; above 5 it translates the
    squares, changing their position and nothing else.  Of a piece it
    changes the accumulated force and torque only. *)
Theorem shake_frame (random : nat -> Q) (s : Sim2D.State) :
  Sim2D.engineRef (Sim2D.shakeBoard random s) = Sim2D.engineRef s
  /\ ((Sim2D.shakeIntensity s + 1 <= 5)%Z ->
      Sim2D.boardRef (Sim2D.shakeBoard random s) = Sim2D.boardRef s)
  /\ Forall2 sameButPosition (squaresOf s) (squaresOf (Sim2D.shakeBoard random s))
  /\ Forall2 sameButForce (Sim2D.piecesRef s) (Sim2D.piecesRef (Sim2D.shakeBoard random s)).
Proof.
  split; [|split; [|split; [apply shakeBoard2D_squares|]]];
    (destruct (Sim2D.ready s) eqn:Hr;
     [rewrite shakeBoard2D_ready by exact Hr | rewrite shakeBoard2D_unready by exact Hr]).
  - reflexivity.
  - reflexivity.
  - cbn [Sim2D.boardRef]. intros Hle. destruct (Sim2D.boardRef s); [|reflexivity].
    destruct (Z.ltb_spec 5 (Sim2D.shakeIntensity s + 1)); [lia | reflexivity].
  - reflexivity.
  - cbn [Sim2D.piecesRef]. apply Forall2_forEachIndexed. intros p k.
    apply shakePiece_sameButForce.
  - apply Forall2_same. intros p. unfold sameButForce. repeat split.
Qed.

Lemma shake_frame_witness :
  (Sim2D.shakeIntensity (shaken2D 4) + 1 <= 5)%Z
  /\ Sim2D.boardRef (Sim2D.shakeBoard highDraws (shaken2D 4)) = Sim2D.boardRef (shaken2D 4).
Proof.
  assert (L : (Sim2D.shakeIntensity (shaken2D 4) + 1 <= 5)%Z) by (vm_compute; discriminate).
  split; [exact L|].
  exact (proj1 (proj2 (shake_frame highDraws (shaken2D 4))) L).
Defined.

(** C5 as stated fails: the sixth shake translates the board squares, which
    are static bodies. *)
Lemma shake_moves_static_squares :
  exists sq sq' : Matter.Body,
    nth_error (squaresOf (shaken2D 5)) 0 = Some sq
    /\ nth_error (squaresOf (Sim2D.shakeBoard zeroDraws (shaken2D 5))) 0 = Some sq'
    /\ Matter.isStatic sq = true
    /\ Matter.x (Matter.position sq) == 40
    /\ Matter.x (Matter.position sq') == 39
    /\ ~ Matter.x (Matter.position sq') == Matter.x (Matter.position sq).
Proof.
  eexists. eexists.
  split; [vm_compute; reflexivity|]. split; [vm_compute; reflexivity|].
  split; [reflexivity|]. split; [reflexivity|]. split; [reflexivity|].
  vm_compute. discriminate.
Qed.

(** ** The random impulses *)

Lemma shakeImpulse_positive (random : nat -> Q) (force : Z) (calls : nat) :
  (0 < force)%Z ->
  Scene3D.shakeImpulse random force calls
  = Some ((random calls - 0.5) * inject_Z force * 0.4,
          random (S (S calls)) * inject_Z force * 0.15,
          (random (S calls) - 0.5) * inject_Z force * 0.4).
Proof.
  intros H. unfold Scene3D.shakeImpulse.
  destruct (Z.ltb_spec 0 force); [reflexivity | lia].
Qed.

(** C3, as the code has it.  Every impulse component is computed from a
    draw of its own and is proportional to the intensity.  In the 2D
    simulator piece number k gets the draws 2k and 2k+1 of the shake, and
    both components of the force added, the vertical one included, lie in
    the symmetric range of half-width 0.005 times the intensity.  In the 3D
    scene the two horizontal components lie in the symmetric range of
    half-width 0.2 times the shake force, and the vertical component lies
    between 0 and 0.15 times the shake force: it is never negative. *)
Theorem shake_impulse_ranges (random : nat -> Q) :
  unitDraws random ->
  (forall s : Sim2D.State,
      Sim2D.ready s = true ->
      Sim2D.piecesRef (Sim2D.shakeBoard random s)
      = forEachIndexed
          (fun p k => fst (Sim2D.shakePiece random (Sim2D.shakeIntensity s + 1) p
                             (Sim2D.randomCalls s + 2 * k)%nat))
          0 (Sim2D.piecesRef s))
  /\ (forall (intensity : Z) (p : Sim2D.Piece) (calls : nat),
         (0 <= intensity)%Z ->
         let p' := fst (Sim2D.shakePiece random intensity p calls) in
         vectorEq (forceAdded p p')
                  (Matter.mkVector ((random calls - 0.5) * inject_Z intensity * 0.01)
                                   ((random (S calls) - 0.5) * inject_Z intensity * 0.01))
         /\ within (0.005 * inject_Z intensity) (forceAdded p p'))
  /\ (forall (force : Z) (calls : nat),
         (0 < force)%Z ->
         exists fx fy fz : Q,
           Scene3D.shakeImpulse random force calls = Some (fx, fy, fz)
           /\ fx = (random calls - 0.5) * inject_Z force * 0.4
           /\ fz = (random (S calls) - 0.5) * inject_Z force * 0.4
           /\ fy = random (S (S calls)) * inject_Z force * 0.15
           /\ Qabs fx <= 0.2 * inject_Z force
           /\ Qabs fz <= 0.2 * inject_Z force
           /\ 0 <= fy /\ fy <= 0.15 * inject_Z force).
Proof.
  intros Hu. split; [|split].
  - intros s Hr. now rewrite shakeBoard2D_ready.
  - intros intensity p calls Hi p'. split; [|now apply shakePiece_bound].
    unfold vectorEq, forceAdded. subst p'.
    cbn [fst Sim2D.shakePiece Sim2D.onBody Sim2D.body Matter.applyForce Matter.force
         Matter.x Matter.y].
    split; apply added_then_removed.
  - intros force calls Hf. do 3 eexists.
    split; [now apply shakeImpulse_positive|].
    do 3 (split; [reflexivity|]).
    assert (Hq : 0 <= inject_Z force) by (unfold Qle; simpl; lia).
    assert (Hb : 0.2 * inject_Z force == 0.5 * 0.4 * inject_Z force) by ring.
    destruct (Hu calls) as [H0 H1]. destruct (Hu (S calls)) as [H0' H1'].
    destruct (Hu (S (S calls))) as [H0'' H1''].
    split; [rewrite Hb; apply scaled_draw_bound; try assumption; discriminate|].
    split; [rewrite Hb; apply scaled_draw_bound; try assumption; discriminate|].
    split; nra.
Qed.

Lemma shake_impulse_ranges_witness :
  unitDraws highDraws
  /\ (Sim2D.ready (shaken2D 1) = true
      /\ Sim2D.piecesRef (Sim2D.shakeBoard highDraws (shaken2D 1))
         = forEachIndexed
             (fun p k => fst (Sim2D.shakePiece highDraws
                                (Sim2D.shakeIntensity (shaken2D 1) + 1) p
                                (Sim2D.randomCalls (shaken2D 1) + 2 * k)%nat))
             0 (Sim2D.piecesRef (shaken2D 1)))
  /\ ((0 <= 3)%Z
      /\ forall p : Sim2D.Piece,
          within (0.005 * inject_Z 3)
                 (forceAdded p (fst (Sim2D.shakePiece highDraws 3 p 0))))
  /\ ((0 < 10)%Z
      /\ exists fx fy fz : Q,
          Scene3D.shakeImpulse highDraws 10 0 = Some (fx, fy, fz)
          /\ Qabs fx <= 0.2 * inject_Z 10 /\ Qabs fz <= 0.2 * inject_Z 10
          /\ 0 <= fy /\ fy <= 0.15 * inject_Z 10).
Proof.
  assert (U : unitDraws highDraws)
    by (intros n; split; [discriminate | reflexivity]).
  assert (R1 : Sim2D.ready (shaken2D 1) = true) by (vm_compute; reflexivity).
  assert (P3 : (0 <= 3)%Z) by lia.
  assert (P10 : (0 < 10)%Z) by lia.
  destruct (shake_impulse_ranges highDraws U) as [H1 [H2 H3]].
  split; [exact U|]. split; [split; [exact R1 | exact (H1 _ R1)]|].
  split; [split; [exact P3 | intros p; exact (proj2 (H2 3%Z p 0%nat P3))]|].
  split; [exact P10|].
  destruct (H3 10%Z 0%nat P10) as [fx [fy [fz [E [_ [_ [_ [Bx [Bz [By0 By1]]]]]]]]]].
  exists fx, fy, fz. repeat split; assumption.
Defined.

(** C3 as stated fails in the 2D simulator: the vertical component of the
    force takes either sign, so there is no upward bias. *)
Lemma shake2D_vertical_either_sign :
  unitDraws zeroDraws /\ unitDraws highDraws
  /\ exists p p0 p1 : Sim2D.Piece,
      nth_error (Sim2D.piecesRef (shaken2D 0)) 0 = Some p
      /\ nth_error (Sim2D.piecesRef (Sim2D.shakeBoard zeroDraws (shaken2D 0))) 0 = Some p0
      /\ nth_error (Sim2D.piecesRef (Sim2D.shakeBoard highDraws (shaken2D 0))) 0 = Some p1
      /\ Matter.y (forceAdded p p0) == - 0.005
      /\ Matter.y (forceAdded p p1) == 0.0025
      /\ Matter.y (forceAdded p p0) < 0
      /\ 0 < Matter.y (forceAdded p p1).
Proof.
  split; [exact unitDraws_zero|]. split; [exact unitDraws_high|].
  do 3 eexists.
  split; [vm_compute; reflexivity|]. split; [vm_compute; reflexivity|].
  split; [vm_compute; reflexivity|].
  repeat split; vm_compute; reflexivity.
Qed.

(** ** The scale of a shake *)

(** The 3D scene scales its impulses by the clamped intensity. *)
Lemma shake3D_scale_clamped (random : nat -> Q) (s : Scene3D.State) :
  Scene3D.shakeForce (Scene3D.shakeBoard random s)
  = Scene3D.shakeIntensity (Scene3D.shakeBoard random s)
  /\ Scene3D.shakeForce (Scene3D.shakeBoard random s)
     = Z.min (Scene3D.shakeIntensity s + 1) 10
  /\ (Scene3D.shakeForce (Scene3D.shakeBoard random s) <= 10)%Z.
Proof.
  unfold Scene3D.shakeBoard.
  destruct (render_fields random s (Z.min (Scene3D.shakeIntensity s + 1) 10)
              (Z.min (Scene3D.shakeIntensity s + 1) 10) (Scene3D.resetTrigger s))
    as [-> [-> _]].
  repeat split. lia.
Qed.

(** C4 at intensity 10 in the 2D simulator: the shake keeps the stored
    intensity at 10 but scales the forces by 11, so the force added to a
    piece exceeds the bound 0.005 * 10 that the clamped intensity gives. *)
Lemma shake2D_scale_exceeds_clamp :
  Sim2D.shakeIntensity (shaken2D 10) = 10%Z
  /\ Sim2D.shakeIntensity (Sim2D.shakeBoard zeroDraws (shaken2D 10)) = 10%Z
  /\ exists p p' : Sim2D.Piece,
      nth_error (Sim2D.piecesRef (shaken2D 10)) 0 = Some p
      /\ nth_error (Sim2D.piecesRef (Sim2D.shakeBoard zeroDraws (shaken2D 10))) 0 = Some p'
      /\ Matter.x (forceAdded p p') == (0 - 0.5) * 11 * 0.01
      /\ ~ within (0.005 * 10) (forceAdded p p').
Proof.
  split; [vm_compute; reflexivity|]. split; [vm_compute; reflexivity|].
  do 2 eexists.
  split; [vm_compute; reflexivity|]. split; [vm_compute; reflexivity|].
  split; [vm_compute; reflexivity|].
  intros [H _]. vm_compute in H. apply H. reflexivity.
Qed.

(** ** A zero shake force *)

Lemma keyEqb_eq (k1 k2 : (nat * nat) * Z) :
  Scene3D.keyEqb k1 k2 = true <-> k1 = k2.
Proof.
  destruct k1 as [[a b] t], k2 as [[a' b'] t']. unfold Scene3D.keyEqb. simpl.
  rewrite !Bool.andb_true_iff, !Nat.eqb_eq, Z.eqb_eq. split.
  - intros [[-> ->] ->]. reflexivity.
  - intros H. inversion H. auto.
Qed.

Lemma find_after_misses {A : Type} (f : A -> bool) (pre : list A) (a : A) (l : list A) :
  (forall x, In x pre -> f x = false) -> f a = true ->
  find f (pre ++ a :: l) = Some a.
Proof.
  intros Hpre Ha. induction pre as [|x pre IH]; simpl.
  - now rewrite Ha.
  - rewrite (Hpre x) by now left. apply IH. intros y Hy. apply Hpre. now right.
Qed.

Lemma newPieces_ids_distinct : NoDup (map Scene3D.id Scene3D.newPieces).
Proof.
  vm_compute.
  repeat (constructor; [simpl; intuition congruence|]).
  constructor.
Qed.

(** Re-rendering with a zero shake force keeps every mounted piece: its key
    and its body are the old ones, and no draw is made. *)
Lemma render_zero_keeps (random : nat -> Q) (prev t : Z) :
  forall (pds : list Scene3D.PieceData) (l pre : list Scene3D.Mounted) (calls : nat),
    map Scene3D.key l = map (fun pd => (Scene3D.id pd, t)) pds ->
    NoDup (map Scene3D.id pds) ->
    (forall m pd, In m pre -> In pd pds ->
                  Scene3D.keyEqb (Scene3D.key m) (Scene3D.id pd, t) = false) ->
    forEachRandom (Scene3D.renderPiece random (pre ++ l) prev 0 t) pds calls
    = (map (fun mp => Scene3D.mkMounted (Scene3D.key (fst mp)) (snd mp)
                                        (Scene3D.cylinder (fst mp)))
           (combine l pds), calls).
Proof.
  induction pds as [|pd pds IH]; intros l pre calls Hkeys Hnd Hpre.
  - destruct l; reflexivity.
  - destruct l as [|m l]; [discriminate|].
    simpl in Hkeys. injection Hkeys as Hm Hkeys.
    simpl in Hnd. inversion Hnd as [|i ids Hnotin Hnd']. subst i ids.
    cbn [forEachRandom combine map fst snd]. unfold Scene3D.renderPiece at 1.
    rewrite (find_after_misses _ pre m l).
    + assert (E : (if (0 =? prev)%Z
                   then (Scene3D.mkMounted (Scene3D.key m) pd (Scene3D.cylinder m), calls)
                   else Scene3D.shakeEffect random 0
                          (Scene3D.mkMounted (Scene3D.key m) pd (Scene3D.cylinder m)) calls)
                  = (Scene3D.mkMounted (Scene3D.key m) pd (Scene3D.cylinder m), calls))
        by (destruct (0 =? prev)%Z; reflexivity).
      rewrite E.
      replace (pre ++ m :: l) with ((pre ++ [m]) ++ l)
        by (rewrite <- app_assoc; reflexivity).
      rewrite (IH l (pre ++ [m]) calls Hkeys Hnd'); [reflexivity|].
      intros m0 pd0 Hm0 Hpd0. apply in_app_or in Hm0. destruct Hm0 as [Hm0|Hm0].
      * apply Hpre; [exact Hm0 | now right].
      * destruct Hm0 as [<-|[]]. rewrite Hm.
        destruct (Scene3D.keyEqb (Scene3D.id pd, t) (Scene3D.id pd0, t)) eqn:K;
          [|reflexivity].
        apply keyEqb_eq in K. exfalso. apply Hnotin.
        injection K as ->. now apply in_map.
    + intros m0 Hm0. apply Hpre; [exact Hm0 | now left].
    + apply keyEqb_eq. exact Hm.
Qed.

Lemma map_fst_combine {A B C : Type} (f : A -> C) (g : A -> B -> A) (l : list A) :
  (forall a b, f (g a b) = f a) ->
  forall l' : list B, List.length l = List.length l' ->
    map f (map (fun ab => g (fst ab) (snd ab)) (combine l l')) = map f l.
Proof.
  intros Hf. induction l as [|a l IH]; intros [|b l'] Hlen; simpl in *;
    try reflexivity; try discriminate.
  rewrite Hf. f_equal. apply IH. now injection Hlen.
Qed.

Lemma render_zero_cylinders (random : nat -> Q) (s : Scene3D.State) (i : Z) :
  consistent s ->
  let s' := Scene3D.render random s i 0 (Scene3D.resetTrigger s) in
  map Scene3D.cylinder (Scene3D.mounted s') = map Scene3D.cylinder (Scene3D.mounted s)
  /\ Scene3D.randomCalls s' = Scene3D.randomCalls s.
Proof.
  intros Hc s'. subst s'. unfold Scene3D.render.
  pose proof (render_zero_keeps random (Scene3D.shakeForce s) (Scene3D.resetTrigger s)
                Scene3D.newPieces (Scene3D.mounted s) [] (Scene3D.randomCalls s)
                Hc newPieces_ids_distinct) as E.
  cbn [app] in E. rewrite E by (intros m pd []).
  cbn [Scene3D.mounted Scene3D.randomCalls]. split; [|reflexivity].
  apply (map_fst_combine Scene3D.cylinder
           (fun m pd => Scene3D.mkMounted (Scene3D.key m) pd (Scene3D.cylinder m))).
  - reflexivity.
  - unfold consistent in Hc. apply (f_equal (@List.length _)) in Hc.
    now rewrite !length_map in Hc.
Qed.

Lemma consistent_scene3D : consistent scene3D.
Proof. vm_compute. reflexivity. Qed.

(** C6.  With a shake force of zero the effect of a piece applies no
    impulse: it draws nothing and leaves the piece as it is.  Hence a render
    in which the shake force is zero leaves the velocity, and the whole
    body, of every mounted piece unchanged; a piece mounted by such a render
    starts with zero velocity. *)
Theorem zero_shake_force_no_impulse (random : nat -> Q) :
  (forall calls : nat, Scene3D.shakeImpulse random 0 calls = None)
  /\ (forall (m : Scene3D.Mounted) (calls : nat),
         Scene3D.shakeEffect random 0 m calls = (m, calls))
  /\ (forall (old : list Scene3D.Mounted) (prevForce trigger : Z)
             (pd : Scene3D.PieceData) (calls : nat),
         Cannon.velocity
           (Scene3D.cylinder
              (fst (Scene3D.renderPiece random old prevForce 0 trigger pd calls)))
         = match find (fun m => Scene3D.keyEqb (Scene3D.key m) (Scene3D.id pd, trigger)) old
           with
           | Some m => Cannon.velocity (Scene3D.cylinder m)
           | None => Cannon.origin
           end)
  /\ (forall (s : Scene3D.State) (i : Z),
         consistent s ->
         map Scene3D.cylinder
             (Scene3D.mounted (Scene3D.render random s i 0 (Scene3D.resetTrigger s)))
         = map Scene3D.cylinder (Scene3D.mounted s)).
Proof.
  split; [reflexivity|]. split; [reflexivity|]. split.
  - intros old prevForce trigger pd calls. unfold Scene3D.renderPiece.
    destruct (find _ old) as [m|]; [|reflexivity].
    destruct (0 =? prevForce)%Z; reflexivity.
  - intros s i Hc. exact (proj1 (render_zero_cylinders random s i Hc)).
Qed.

Lemma zero_shake_force_no_impulse_witness :
  consistent scene3D
  /\ map Scene3D.cylinder
       (Scene3D.mounted
          (Scene3D.render highDraws scene3D 0 0 (Scene3D.resetTrigger scene3D)))
     = map Scene3D.cylinder (Scene3D.mounted scene3D).
Proof.
  assert (C : consistent scene3D) by (vm_compute; reflexivity).
  split; [exact C|].
  exact (proj2 (proj2 (proj2 (zero_shake_force_no_impulse highDraws))) scene3D 0%Z C).
Defined.

(** ** Consistency of the mounted scene *)

Lemma forEachRandom_map {A B C : Type} (f : A -> nat -> B * nat) (h : B -> C)
      (g : A -> C) :
  (forall a c, h (fst (f a c)) = g a) ->
  forall l calls, map h (fst (forEachRandom f l calls)) = map g l.
Proof.
  intros Hf. induction l as [|a rest IH]; intros calls; simpl; [reflexivity|].
  specialize (Hf a calls). destruct (f a calls) as [a' c']. specialize (IH c').
  destruct (forEachRandom f rest c'). simpl in *. now rewrite Hf, IH.
Qed.

(** Every render leaves the scene consistent, so every state a run of
    commands reaches is. *)
Lemma render_consistent (random : nat -> Q) (s : Scene3D.State) (i f t : Z) :
  consistent (Scene3D.render random s i f t).
Proof.
  unfold consistent.
  destruct (render_fields random s i f t) as [_ [_ [-> ->]]].
  apply forEachRandom_map. intros pd c. unfold Scene3D.renderPiece.
  destruct (find _ (Scene3D.mounted s)) as [m|] eqn:E.
  - apply find_some in E. destruct E as [_ E]. apply keyEqb_eq in E.
    destruct (f =? Scene3D.shakeForce s)%Z; [exact E|].
    rewrite shakeEffect_key. exact E.
  - rewrite shakeEffect_key. reflexivity.
Qed.

Lemma consistent_keysCurrent (s : Scene3D.State) : consistent s -> keysCurrent s.
Proof.
  unfold consistent, keysCurrent. intros H.
  assert (G : Forall (fun k : (nat * nat) * Z => snd k = Scene3D.resetTrigger s)
                     (map Scene3D.key (Scene3D.mounted s))).
  { rewrite H. apply Forall_forall. intros k Hk. apply in_map_iff in Hk.
    destruct Hk as [pd [<- _]]. reflexivity. }
  apply Forall_map in G. exact G.
Qed.

Lemma run3D_consistent (random : nat -> Q) (s : Scene3D.State) (c : Scene3D.Command) :
  consistent (Scene3D.run random s c).
Proof. destruct c; apply render_consistent. Qed.

(** * Further properties of the pages *)

(** ** The 2D page: how the buttons compose *)

Lemma Forall2_map_both {A B : Type} (R : A -> A -> Prop) (R' : B -> B -> Prop)
      (f : A -> B) (l l' : list A) :
  (forall a a', R a a' -> R' (f a) (f a')) ->
  Forall2 R l l' -> Forall2 R' (map f l) (map f l').
Proof.
  intros H. induction 1; simpl; constructor; auto.
Qed.

Lemma Forall2_map_eq {A B C : Type} (R : A -> B -> Prop) (f : A -> C) (g : B -> C)
      (l : list A) (l' : list B) :
  (forall a b, R a b -> f a = g b) ->
  Forall2 R l l' -> map f l = map g l'.
Proof.
  intros H. induction 1 as [|a b l l' Hab _ IH]; simpl; [reflexivity|].
  now rewrite (H a b Hab), IH.
Qed.

Lemma shakeBoard2D_pieces (random : nat -> Q) (s : Sim2D.State) :
  Forall2 sameButForce (Sim2D.piecesRef s) (Sim2D.piecesRef (Sim2D.shakeBoard random s)).
Proof.
  destruct (Sim2D.ready s) eqn:Hr.
  - rewrite shakeBoard2D_ready by exact Hr. cbn [Sim2D.piecesRef].
    apply Forall2_forEachIndexed. intros p k. apply shakePiece_sameButForce.
  - rewrite shakeBoard2D_unready by exact Hr.
    apply Forall2_same. intros p. unfold sameButForce. repeat split.
Qed.

Lemma shakeBoard2D_engine (random : nat -> Q) (s : Sim2D.State) :
  Sim2D.engineRef (Sim2D.shakeBoard random s) = Sim2D.engineRef s.
Proof.
  destruct (Sim2D.ready s) eqn:Hr.
  - now rewrite shakeBoard2D_ready.
  - now rewrite shakeBoard2D_unready.
Qed.

Lemma resetPiece_sameButForce (p p' : Sim2D.Piece) :
  sameButForce p p' -> sameButForce (Sim2D.resetPiece p) (Sim2D.resetPiece p').
Proof.
  unfold sameButForce.
  intros [_ [_ [_ [_ [Hs [Ho [Hx [Hy [Ht Hw]]]]]]]]].
  cbn. rewrite Hx, Hy. repeat split; assumption.
Qed.

Lemma squares_present (s s' : Sim2D.State) :
  Forall2 sameButPosition (squaresOf s) (squaresOf s') ->
  (Sim2D.boardRef s = None <-> Sim2D.boardRef s' = None) ->
  option_map (forEachIndexed Sim2D.resetSquare 0) (Sim2D.boardRef s')
  = option_map (forEachIndexed Sim2D.resetSquare 0) (Sim2D.boardRef s).
Proof.
  unfold squaresOf. intros H Hn.
  destruct (Sim2D.boardRef s) as [sq|], (Sim2D.boardRef s') as [sq'|]; simpl.
  - now rewrite (resetSquares_ignore_position _ _ H).
  - destruct Hn as [_ Hn]. discriminate Hn. reflexivity.
  - destruct Hn as [Hn _]. discriminate Hn. reflexivity.
  - reflexivity.
Qed.

Lemma shakeBoard2D_board_present (random : nat -> Q) (s : Sim2D.State) :
  Sim2D.boardRef s = None <-> Sim2D.boardRef (Sim2D.shakeBoard random s) = None.
Proof.
  destruct (Sim2D.ready s) eqn:Hr.
  - rewrite shakeBoard2D_ready by exact Hr. cbn [Sim2D.boardRef].
    destruct (Sim2D.boardRef s); split; intros H; try discriminate; reflexivity.
  - rewrite shakeBoard2D_unready by exact Hr. reflexivity.
Qed.

Lemma resetBoard2D_ready (s : Sim2D.State) :
  Sim2D.ready s = true ->
  Sim2D.resetBoard s
  = Sim2D.mkState (Sim2D.windowMatter s) (Sim2D.engineRef s)
      (option_map (forEachIndexed Sim2D.resetSquare 0) (Sim2D.boardRef s))
      (map Sim2D.resetPiece (Sim2D.piecesRef s))
      (Sim2D.isLoaded s) 0 (Sim2D.randomCalls s).
Proof.
  intros Hr. unfold Sim2D.resetBoard. rewrite Hr. cbn [negb].
  destruct (Sim2D.boardRef s); reflexivity.
Qed.

(** X1.  A reset absorbs the shake before it: resetting after a shake gives
    the board squares, the engine and the intensity that resetting at once
    would have given, and pieces that differ from those at most in the
    force and torque the shake accumulated, which the reset does not clear. *)
Theorem reset_absorbs_shake (random : nat -> Q) (s : Sim2D.State) :
  Sim2D.ready s = true ->
  Sim2D.boardRef (Sim2D.resetBoard (Sim2D.shakeBoard random s))
  = Sim2D.boardRef (Sim2D.resetBoard s)
  /\ Sim2D.engineRef (Sim2D.resetBoard (Sim2D.shakeBoard random s))
     = Sim2D.engineRef (Sim2D.resetBoard s)
  /\ Sim2D.shakeIntensity (Sim2D.resetBoard (Sim2D.shakeBoard random s)) = 0%Z
  /\ Sim2D.shakeIntensity (Sim2D.resetBoard s) = 0%Z
  /\ Forall2 sameButForce
             (Sim2D.piecesRef (Sim2D.resetBoard s))
             (Sim2D.piecesRef (Sim2D.resetBoard (Sim2D.shakeBoard random s)))
  /\ Forall2 (fun p p' =>
                Matter.force (Sim2D.body p') = Matter.force (Sim2D.body p)
                /\ Matter.torque (Sim2D.body p') = Matter.torque (Sim2D.body p))
             (Sim2D.piecesRef (Sim2D.shakeBoard random s))
             (Sim2D.piecesRef (Sim2D.resetBoard (Sim2D.shakeBoard random s))).
Proof.
  intros Hr.
  assert (Hr' : Sim2D.ready (Sim2D.shakeBoard random s) = true)
    by now rewrite ready_shakeBoard.
  rewrite (resetBoard2D_ready _ Hr'), (resetBoard2D_ready _ Hr).
  cbn [Sim2D.boardRef Sim2D.engineRef Sim2D.shakeIntensity Sim2D.piecesRef].
  split; [|split; [|split; [|split; [|split]]]].
  - apply squares_present;
      [apply shakeBoard2D_squares | apply shakeBoard2D_board_present].
  - apply shakeBoard2D_engine.
  - reflexivity.
  - reflexivity.
  - apply (Forall2_map_both sameButForce); [apply resetPiece_sameButForce|].
    apply shakeBoard2D_pieces.
  - apply Forall2_map_right. intros p. split; reflexivity.
Qed.

Lemma reset_absorbs_shake_witness :
  Sim2D.ready (shaken2D 7) = true
  /\ Sim2D.boardRef (Sim2D.resetBoard (Sim2D.shakeBoard highDraws (shaken2D 7)))
     = Sim2D.boardRef (Sim2D.resetBoard (shaken2D 7)).
Proof.
  assert (R : Sim2D.ready (shaken2D 7) = true) by (vm_compute; reflexivity).
  split; [exact R|]. exact (proj1 (reset_absorbs_shake highDraws (shaken2D 7) R)).
Defined.




Lemma worldBodies_kinds (s s' : Sim2D.State) :
  Sim2D.engineRef s' = Sim2D.engineRef s ->
  map bodyKind (squaresOf s') = map bodyKind (squaresOf s) ->
  map (fun p => bodyKind (Sim2D.body p)) (Sim2D.piecesRef s')
  = map (fun p => bodyKind (Sim2D.body p)) (Sim2D.piecesRef s) ->
  map bodyKind (Sim2D.worldBodies s') = map bodyKind (Sim2D.worldBodies s).
Proof.
  intros He Hs Hp. unfold Sim2D.worldBodies. rewrite He.
  destruct (Sim2D.engineRef s) as [e|]; [|reflexivity].
  fold (squaresOf s'). fold (squaresOf s).
  rewrite !map_app, !map_map. now rewrite Hs, Hp.
Qed.

Lemma sameButPosition_kind (b b' : Matter.Body) :
  sameButPosition b b' -> bodyKind b' = bodyKind b.
Proof. unfold sameButPosition. intros <-. reflexivity. Qed.

Lemma run_button_kinds (random : nat -> Q) (s : Sim2D.State) (c : Sim2D.Command) :
  isButton c = true ->
  map bodyKind (Sim2D.worldBodies (Sim2D.run random s c))
  = map bodyKind (Sim2D.worldBodies s).
Proof.
  intros Hb. destruct c as [canvas| |]; [discriminate| |]; simpl.
  - apply worldBodies_kinds.
    + apply shakeBoard2D_engine.
    + symmetry. apply (Forall2_map_eq sameButPosition);
        [|apply shakeBoard2D_squares].
      intros b b' H. symmetry. now apply sameButPosition_kind.
    + symmetry. apply (Forall2_map_eq sameButForce); [|apply shakeBoard2D_pieces].
      intros p p' [_ [_ [_ [_ [Hs [Ho _]]]]]]. unfold bodyKind. now rewrite Hs, Ho.
  - destruct (Sim2D.ready s) eqn:Hr.
    + rewrite resetBoard2D_ready by exact Hr. apply worldBodies_kinds.
      * reflexivity.
      * unfold squaresOf. cbn [Sim2D.boardRef].
        destruct (Sim2D.boardRef s) as [sq|]; [|reflexivity]. simpl.
        symmetry. apply (Forall2_map_eq sameButPosition).
        -- intros b b' H. symmetry. now apply sameButPosition_kind.
        -- apply Forall2_forEachIndexed. intros b k. destruct b. reflexivity.
      * cbn [Sim2D.piecesRef]. rewrite map_map. reflexivity.
    + unfold Sim2D.resetBoard. now rewrite Hr.
Qed.

(** X3.  The buttons never add a body to the world, never remove one and
    never change what a body is: after any presses the world holds the same
    bodies, in the same order, each with its shape and its options (static
    or not, restitution, friction).  After a load that is 4 walls, 64 board
    squares and 32 pieces, of which the 68 walls and squares are static. *)
Theorem buttons_keep_world_bodies (random : nat -> Q) :
  (forall (s : Sim2D.State) (cs : list Sim2D.Command),
      forallb isButton cs = true ->
      map bodyKind (Sim2D.worldBodies (Sim2D.runAll random s cs))
      = map bodyKind (Sim2D.worldBodies s))
  /\ (forall s : Sim2D.State,
         List.length (Sim2D.worldBodies (Sim2D.scriptOnload true s)) = 100%nat
         /\ List.length
              (filter Matter.isStatic (Sim2D.worldBodies (Sim2D.scriptOnload true s)))
            = 68%nat).
Proof.
  split.
  - intros s cs. revert s. induction cs as [|c cs IH]; intros s Hb; simpl;
      [reflexivity|].
    simpl in Hb. apply Bool.andb_true_iff in Hb. destruct Hb as [Hc Hcs].
    rewrite (IH _ Hcs). now apply run_button_kinds.
  - intros s. split; vm_compute; reflexivity.
Qed.

Lemma buttons_keep_world_bodies_witness :
  forallb isButton [Sim2D.Shake; Sim2D.Shake; Sim2D.Reset; Sim2D.Shake] = true
  /\ map bodyKind
       (Sim2D.worldBodies
          (Sim2D.runAll highDraws (shaken2D 5)
                        [Sim2D.Shake; Sim2D.Shake; Sim2D.Reset; Sim2D.Shake]))
     = map bodyKind (Sim2D.worldBodies (shaken2D 5)).
Proof.
  assert (B : forallb isButton [Sim2D.Shake; Sim2D.Shake; Sim2D.Reset; Sim2D.Shake]
              = true) by reflexivity.
  split; [exact B|].
  exact (proj1 (buttons_keep_world_bodies highDraws) (shaken2D 5) _ B).
Defined.

(** X4.  The intensity bar follows the intensity along every run of the
    2D page: it is hidden exactly when the intensity is 0, and when shown
    its width is ten percent per level, above 0 and at most 100 percent.
    A reset always hides it. *)
Theorem intensity_bar_in_range (random : nat -> Q) (cs : list Sim2D.Command) :
  match intensityBar (Sim2D.shakeIntensity (Sim2D.runAll random Sim2D.initialState cs))
  with
  | None => Sim2D.shakeIntensity (Sim2D.runAll random Sim2D.initialState cs) = 0%Z
  | Some width =>
      0 < width /\ width <= 100
      /\ width
         == 10 * inject_Z (Sim2D.shakeIntensity
                             (Sim2D.runAll random Sim2D.initialState cs))
  end
  /\ intensityBar
       (Sim2D.shakeIntensity
          (Sim2D.resetBoard (Sim2D.runAll random Sim2D.initialState cs))) = None.
Proof.
  destruct (inv2D_runAll random cs _ inv2D_initial) as [[Hlo Hhi] Hready].
  set (s := Sim2D.runAll random Sim2D.initialState cs) in *.
  split.
  - unfold intensityBar. destruct (Z.ltb_spec 0 (Sim2D.shakeIntensity s)) as [Hpos|Hle].
    + assert (H1 : 1 <= inject_Z (Sim2D.shakeIntensity s)) by (unfold Qle; simpl; lia).
      assert (H2 : inject_Z (Sim2D.shakeIntensity s) <= 10) by (unfold Qle; simpl; lia).
      assert (E : inject_Z (Sim2D.shakeIntensity s) / 10 * 100
                  == 10 * inject_Z (Sim2D.shakeIntensity s)) by field.
      rewrite E. split; [lra|]. split; [lra | reflexivity].
    + lia.
  - rewrite resetBoard2D_intensity. destruct (Sim2D.ready s).
    + reflexivity.
    + destruct Hready as [H|H]; [now rewrite H | discriminate].
Qed.

(** ** The 2D page: geometry of the setup *)

Lemma createPieces_positions (squareSize : Q) :
  map (fun p => Matter.position (Sim2D.body p)) (Sim2D.createPieces squareSize)
  = map (fun rc => Matter.mkVector (num (snd rc) * squareSize + squareSize / 2)
                                   (num (fst rc) * squareSize + squareSize / 2))
        occupiedCells.
Proof. reflexivity. Qed.

Lemma createPieces_circles (squareSize : Q) :
  Forall (fun p => Matter.shape (Sim2D.body p) = Matter.Circle 25
                   /\ Matter.isStatic (Sim2D.body p) = false)
         (Sim2D.createPieces squareSize).
Proof. repeat constructor. Qed.

Lemma occupiedCells_distinct : NoDup occupiedCells.
Proof.
  vm_compute.
  repeat (constructor; [simpl; intuition congruence|]).
  constructor.
Qed.

Lemma occupiedCells_on_board :
  Forall (fun rc => (fst rc < 8)%nat /\ (snd rc < 8)%nat) occupiedCells.
Proof. vm_compute. repeat constructor. Qed.

Lemma num_apart (a b : nat) :
  a <> b -> num a + 1 <= num b \/ num b + 1 <= num a.
Proof.
  intros H. unfold num.
  destruct (Nat.lt_gt_cases a b) as [Hab _]. destruct (Hab H) as [Hlt|Hgt].
  - left. rewrite <- (inject_Z_plus _ 1), <- Zle_Qle. lia.
  - right. rewrite <- (inject_Z_plus _ 1), <- Zle_Qle. lia.
Qed.

Lemma grid_centres_apart (s : Q) (r1 c1 r2 c2 : nat) :
  50 <= s -> (r1, c1) <> (r2, c2) ->
  (25 + 25) * (25 + 25)
  <= ((num c1 * s + s / 2) - (num c2 * s + s / 2))
     * ((num c1 * s + s / 2) - (num c2 * s + s / 2))
     + ((num r1 * s + s / 2) - (num r2 * s + s / 2))
       * ((num r1 * s + s / 2) - (num r2 * s + s / 2)).
Proof.
  intros Hs Hne.
  set (a := num c1 - num c2). set (b := num r1 - num r2).
  assert (Ex : (num c1 * s + s / 2) - (num c2 * s + s / 2) == a * s)
    by (unfold a; field).
  assert (Ey : (num r1 * s + s / 2) - (num r2 * s + s / 2) == b * s)
    by (unfold b; field).
  rewrite Ex, Ey.
  assert (Hab : 1 <= a * a + b * b).
  { destruct (Nat.eq_dec c1 c2) as [Ec|Nc].
    - destruct (Nat.eq_dec r1 r2) as [Er|Nr]; [exfalso; apply Hne; now subst|].
      assert (0 <= a * a) by nra.
      destruct (num_apart r1 r2 Nr); unfold b; nra.
    - assert (0 <= b * b) by nra.
      destruct (num_apart c1 c2 Nc); unfold a; nra. }
  assert (Hss : 2500 <= s * s) by nra.
  nra.
Qed.

Lemma nth_error_map_some {A B : Type} (f : A -> B) (l : list A) (i : nat) (b : B) :
  nth_error (map f l) i = Some b -> exists a, nth_error l i = Some a /\ f a = b.
Proof.
  rewrite nth_error_map. destruct (nth_error l i) as [a|]; simpl; [|discriminate].
  intros E. injection E as <-. now exists a.
Qed.

(** X5.  However large the squares are, as long as a square is at least as
    wide as a piece (50, twice the radius 25): the pieces [createPieces]
    makes are circles of radius 25 of which no two overlap, and each lies
    wholly inside the 8 x 8 board area.  The four walls [createWalls] makes
    have their inner faces exactly on the edges of that area. *)
Theorem pieces_start_apart (squareSize : Q) :
  50 <= squareSize ->
  (forall (i j : nat) (p q : Sim2D.Piece),
      i <> j ->
      nth_error (Sim2D.createPieces squareSize) i = Some p ->
      nth_error (Sim2D.createPieces squareSize) j = Some q ->
      Matter.shape (Sim2D.body p) = Matter.Circle 25
      /\ Matter.shape (Sim2D.body q) = Matter.Circle 25
      /\ (25 + 25) * (25 + 25) <= distance2 (Sim2D.body p) (Sim2D.body q))
  /\ Forall (fun p =>
               0 <= Matter.x (Matter.position (Sim2D.body p)) - 25
               /\ Matter.x (Matter.position (Sim2D.body p)) + 25 <= 8 * squareSize
               /\ 0 <= Matter.y (Matter.position (Sim2D.body p)) - 25
               /\ Matter.y (Matter.position (Sim2D.body p)) + 25 <= 8 * squareSize)
            (Sim2D.createPieces squareSize)
  /\ (forall thickness boardSize : Q,
         exists top bottom left right : Matter.Body,
           Sim2D.createWalls thickness boardSize = [top; bottom; left; right]
           /\ Matter.y (Matter.position top) + thickness / 2 == 0
           /\ Matter.y (Matter.position bottom) - thickness / 2 == boardSize
           /\ Matter.x (Matter.position left) + thickness / 2 == 0
           /\ Matter.x (Matter.position right) - thickness / 2 == boardSize).
Proof.
  intros Hs. split; [|split].
  - intros i j p q Hij Hp Hq.
    pose proof (createPieces_circles squareSize) as Hc.
    rewrite Forall_forall in Hc.
    split; [apply Hc; eapply nth_error_In; exact Hp|].
    split; [apply Hc; eapply nth_error_In; exact Hq|].
    apply (map_nth_error (fun p => Matter.position (Sim2D.body p))) in Hp, Hq.
    rewrite createPieces_positions in Hp, Hq.
    apply nth_error_map_some in Hp, Hq.
    destruct Hp as [[r1 c1] [Hp Ep]]. destruct Hq as [[r2 c2] [Hq Eq]].
    unfold distance2. rewrite <- Ep, <- Eq. cbn [Matter.x Matter.y fst snd].
    apply grid_centres_apart; [exact Hs|].
    intros E. apply Hij.
    pose proof occupiedCells_distinct as Hnd.
    rewrite NoDup_nth_error in Hnd. apply Hnd.
    + apply nth_error_Some. rewrite Hp. discriminate.
    + now rewrite Hp, Hq, E.
  - apply Forall_forall. intros p Hp.
    apply (in_map (fun p => Matter.position (Sim2D.body p))) in Hp.
    rewrite createPieces_positions in Hp. apply in_map_iff in Hp.
    destruct Hp as [[r c] [E Hrc]]. rewrite <- E. cbn [Matter.x Matter.y fst snd].
    pose proof occupiedCells_on_board as Hb. rewrite Forall_forall in Hb.
    destruct (Hb _ Hrc) as [Hr Hcl]. cbn [fst snd] in Hr, Hcl.
    assert (Hr0 : 0 <= num r /\ num r <= 7)
      by (unfold num, Qle; simpl; lia).
    assert (Hc0 : 0 <= num c /\ num c <= 7)
      by (unfold num, Qle; simpl; lia).
    destruct Hr0, Hc0.
    assert (E1 : forall k, k * squareSize + squareSize / 2 == (k + 0.5) * squareSize)
      by (intros; field).
    rewrite !E1. repeat split; nra.
  - intros thickness boardSize. do 4 eexists. split; [reflexivity|].
    cbn. repeat split; field.
Qed.

Lemma pieces_start_apart_witness :
  50 <= 80 /\ 0%nat <> 1%nat
  /\ exists p q : Sim2D.Piece,
      nth_error (Sim2D.createPieces 80) 0 = Some p
      /\ nth_error (Sim2D.createPieces 80) 1 = Some q
      /\ (25 + 25) * (25 + 25) <= distance2 (Sim2D.body p) (Sim2D.body q).
Proof.
  assert (H : 50 <= 80) by discriminate.
  assert (N : 0%nat <> 1%nat) by discriminate.
  split; [exact H|]. split; [exact N|].
  eexists. eexists. split; [reflexivity|]. split; [reflexivity|].
  exact (proj2 (proj2 (proj1 (pieces_start_apart 80 H) 0%nat 1%nat _ _ N
                             eq_refl eq_refl))).
Defined.

(** ** The 3D scene: what a shake does to the mounted pieces *)

(** Rendering a consistent scene under the same trigger keeps every mounted
    piece; its effect re-runs exactly when the shake force changed. *)
Lemma render_kept (random : nat -> Q) (prev f t : Z) :
  forall (pds : list Scene3D.PieceData) (l pre : list Scene3D.Mounted) (calls : nat),
    map Scene3D.key l = map (fun pd => (Scene3D.id pd, t)) pds ->
    NoDup (map Scene3D.id pds) ->
    (forall m pd, In m pre -> In pd pds ->
                  Scene3D.keyEqb (Scene3D.key m) (Scene3D.id pd, t) = false) ->
    forEachRandom (Scene3D.renderPiece random (pre ++ l) prev f t) pds calls
    = forEachRandom
        (fun mp c =>
           if (f =? prev)%Z
           then (Scene3D.mkMounted (Scene3D.key (fst mp)) (snd mp)
                                   (Scene3D.cylinder (fst mp)), c)
           else Scene3D.shakeEffect random f
                  (Scene3D.mkMounted (Scene3D.key (fst mp)) (snd mp)
                                     (Scene3D.cylinder (fst mp))) c)
        (combine l pds) calls.
Proof.
  induction pds as [|pd pds IH]; intros l pre calls Hkeys Hnd Hpre.
  - destruct l; reflexivity.
  - destruct l as [|m l]; [discriminate|].
    simpl in Hkeys. injection Hkeys as Hm Hkeys.
    simpl in Hnd. inversion Hnd as [|i ids Hnotin Hnd']. subst i ids.
    cbn [forEachRandom combine fst snd]. unfold Scene3D.renderPiece at 1.
    rewrite (find_after_misses _ pre m l).
    + match goal with
      | |- (let (a', calls') := ?X in _) = _ => destruct X as [m' c']
      end.
      replace (pre ++ m :: l) with ((pre ++ [m]) ++ l)
        by (rewrite <- app_assoc; reflexivity).
      rewrite (IH l (pre ++ [m]) c' Hkeys Hnd'); [reflexivity|].
      intros m0 pd0 Hm0 Hpd0. apply in_app_or in Hm0. destruct Hm0 as [Hm0|Hm0].
      * apply Hpre; [exact Hm0 | now right].
      * destruct Hm0 as [<-|[]]. rewrite Hm.
        destruct (Scene3D.keyEqb (Scene3D.id pd, t) (Scene3D.id pd0, t)) eqn:K;
          [|reflexivity].
        apply keyEqb_eq in K. exfalso. apply Hnotin.
        injection K as ->. now apply in_map.
    + intros m0 Hm0. apply Hpre; [exact Hm0 | now left].
    + apply keyEqb_eq. exact Hm.
Qed.

Lemma render_consistent_state (random : nat -> Q) (s : Scene3D.State) (i f : Z) :
  consistent s ->
  Scene3D.render random s i f (Scene3D.resetTrigger s)
  = let (mounted', calls') :=
      forEachRandom
        (fun mp c =>
           if (f =? Scene3D.shakeForce s)%Z
           then (Scene3D.mkMounted (Scene3D.key (fst mp)) (snd mp)
                                   (Scene3D.cylinder (fst mp)), c)
           else Scene3D.shakeEffect random f
                  (Scene3D.mkMounted (Scene3D.key (fst mp)) (snd mp)
                                     (Scene3D.cylinder (fst mp))) c)
        (combine (Scene3D.mounted s) Scene3D.newPieces) (Scene3D.randomCalls s) in
    Scene3D.mkState i f (Scene3D.resetTrigger s) mounted' calls'.
Proof.
  intros Hc. unfold Scene3D.render.
  pose proof (render_kept random (Scene3D.shakeForce s) f (Scene3D.resetTrigger s)
                Scene3D.newPieces (Scene3D.mounted s) [] (Scene3D.randomCalls s)
                Hc newPieces_ids_distinct) as E.
  cbn [app] in E. rewrite E by (intros m pd []). reflexivity.
Qed.

Lemma consistent_length (s : Scene3D.State) :
  consistent s -> List.length (Scene3D.mounted s) = List.length Scene3D.newPieces.
Proof.
  unfold consistent. intros H. apply (f_equal (@List.length _)) in H.
  now rewrite !length_map in H.
Qed.

(** X6.  Shaking again before the 500 ms timeout of the previous shake has
    fired does nothing to the pieces once the intensity is at its maximum:
    intensity and shake force both stay 10, so no effect re-runs, no draw is
    made and every body is left as it is. *)
Theorem repeated_shake_at_full_force (random : nat -> Q) (s : Scene3D.State) :
  consistent s ->
  Scene3D.shakeIntensity s = 10%Z ->
  Scene3D.shakeForce s = 10%Z ->
  map Scene3D.cylinder (Scene3D.mounted (Scene3D.shakeBoard random s))
  = map Scene3D.cylinder (Scene3D.mounted s)
  /\ Scene3D.randomCalls (Scene3D.shakeBoard random s) = Scene3D.randomCalls s
  /\ Scene3D.shakeIntensity (Scene3D.shakeBoard random s) = 10%Z
  /\ Scene3D.shakeForce (Scene3D.shakeBoard random s) = 10%Z.
Proof.
  intros Hc Hi Hf. unfold Scene3D.shakeBoard.
  rewrite (render_consistent_state random s _ _ Hc). rewrite Hi, Hf.
  change (Z.min (10 + 1) 10) with 10%Z. cbn [Z.eqb Pos.eqb].
  rewrite (forEachRandom_pure _
             (fun mp => Scene3D.mkMounted (Scene3D.key (fst mp)) (snd mp)
                                          (Scene3D.cylinder (fst mp))))
    by reflexivity.
  cbn [Scene3D.mounted Scene3D.randomCalls Scene3D.shakeIntensity Scene3D.shakeForce].
  split; [|repeat split].
  apply (map_fst_combine Scene3D.cylinder
           (fun m pd => Scene3D.mkMounted (Scene3D.key m) pd (Scene3D.cylinder m))).
  - reflexivity.
  - now apply consistent_length.
Qed.

Lemma repeated_shake_at_full_force_witness :
  consistent (Scene3D.runAll zeroDraws scene3D (repeat Scene3D.Shake 10))
  /\ Scene3D.shakeIntensity (Scene3D.runAll zeroDraws scene3D (repeat Scene3D.Shake 10))
     = 10%Z
  /\ Scene3D.shakeForce (Scene3D.runAll zeroDraws scene3D (repeat Scene3D.Shake 10))
     = 10%Z
  /\ map Scene3D.cylinder
       (Scene3D.mounted
          (Scene3D.shakeBoard highDraws
             (Scene3D.runAll zeroDraws scene3D (repeat Scene3D.Shake 10))))
     = map Scene3D.cylinder
         (Scene3D.mounted (Scene3D.runAll zeroDraws scene3D (repeat Scene3D.Shake 10))).
Proof.
  assert (C : consistent (Scene3D.runAll zeroDraws scene3D (repeat Scene3D.Shake 10)))
    by (vm_compute; reflexivity).
  assert (I : Scene3D.shakeIntensity
                (Scene3D.runAll zeroDraws scene3D (repeat Scene3D.Shake 10)) = 10%Z)
    by (vm_compute; reflexivity).
  assert (F : Scene3D.shakeForce
                (Scene3D.runAll zeroDraws scene3D (repeat Scene3D.Shake 10)) = 10%Z)
    by (vm_compute; reflexivity).
  split; [exact C|]. split; [exact I|]. split; [exact F|].
  exact (proj1 (repeated_shake_at_full_force highDraws _ C I F)).
Defined.

Lemma forEachRandom_Forall2 {A B : Type} (f : A -> nat -> B * nat) (R : A -> B -> Prop) :
  (forall a c, R a (fst (f a c))) ->
  forall l calls, Forall2 R l (fst (forEachRandom f l calls)).
Proof.
  intros Hf. induction l as [|a rest IH]; intros calls; simpl.
  - constructor.
  - specialize (Hf a calls). destruct (f a calls) as [a' c']. specialize (IH c').
    destruct (forEachRandom f rest c'). simpl in *. now constructor.
Qed.

Lemma Forall2_combine_fst {A B C : Type} (R : A -> C -> Prop) (P : A -> Prop) :
  forall (l : list A) (l' : list B) (r : list C),
    List.length l = List.length l' ->
    Forall P l ->
    Forall2 (fun ab c => P (fst ab) -> R (fst ab) c) (combine l l') r ->
    Forall2 R l r.
Proof.
  induction l as [|a l IH]; intros [|b l'] r Hlen HP H; simpl in *;
    try discriminate.
  - inversion H. constructor.
  - inversion H as [|ab c abs cs Hab Hrest]. subst.
    inversion HP as [|a0 l0 Pa Pl]. subst.
    constructor; [now apply Hab|]. apply (IH l'); [now injection Hlen | exact Pl | exact Hrest].
Qed.

Lemma shakeEffect_lifts (random : nat -> Q) (f : Z) (m : Scene3D.Mounted) (c : nat) :
  unitDraws random -> (0 < f)%Z -> 0 < Cannon.mass (Scene3D.cylinder m) ->
  Scene3D.key (fst (Scene3D.shakeEffect random f m c)) = Scene3D.key m
  /\ Cannon.position (Scene3D.cylinder (fst (Scene3D.shakeEffect random f m c)))
     = Cannon.position (Scene3D.cylinder m)
  /\ Cannon.rotation (Scene3D.cylinder (fst (Scene3D.shakeEffect random f m c)))
     = Cannon.rotation (Scene3D.cylinder m)
  /\ Cannon.angularVelocity (Scene3D.cylinder (fst (Scene3D.shakeEffect random f m c)))
     = Cannon.angularVelocity (Scene3D.cylinder m)
  /\ vy (Scene3D.cylinder m) <= vy (Scene3D.cylinder (fst (Scene3D.shakeEffect random f m c)))
  /\ snd (Scene3D.shakeEffect random f m c) = (c + 3)%nat.
Proof.
  intros Hu Hf Hm. unfold Scene3D.shakeEffect.
  rewrite shakeImpulse_positive by exact Hf. cbn [fst snd Scene3D.key Scene3D.cylinder].
  split; [reflexivity|].
  unfold Cannon.applyImpulseAtCentre, vy.
  destruct (Cannon.velocity (Scene3D.cylinder m)) as [[vx v] vz] eqn:Ev.
  destruct (Cannon.bodyType (Scene3D.cylinder m));
    cbn [Cannon.position Cannon.rotation Cannon.angularVelocity Cannon.velocity fst snd];
    rewrite ?Ev; cbn [fst snd];
    (split; [reflexivity|]); (split; [reflexivity|]); (split; [reflexivity|]);
    (split; [|lia]); try apply Qle_refl.
  destruct (Hu (S (S c))) as [H0 _].
  assert (Hq : 0 <= inject_Z f) by (unfold Qle; simpl; lia).
  assert (Hi : 0 <= random (S (S c)) * inject_Z f * 0.15) by nra.
  assert (Hinv : 0 < / Cannon.mass (Scene3D.cylinder m)) by now apply Qinv_lt_0_compat.
  unfold Qdiv.
  assert (0 <= random (S (S c)) * inject_Z f * 0.15 * / Cannon.mass (Scene3D.cylinder m))
    by (apply Qmult_le_0_compat; [exact Hi | now apply Qlt_le_weak]).
  lra.
Qed.

(** X7.  A shake that follows a fired timeout (the shake force is back at 0)
    gives every mounted piece an impulse that never points downward: the
    vertical velocity of no piece decreases, and no piece has its position,
    rotation or angular velocity touched.  Every piece takes three draws,
    96 for the 32 pieces. *)
Theorem shake3D_never_pushes_down (random : nat -> Q) (s : Scene3D.State) :
  unitDraws random ->
  consistent s ->
  Forall (fun m => 0 < Cannon.mass (Scene3D.cylinder m)) (Scene3D.mounted s) ->
  (0 <= Scene3D.shakeIntensity s)%Z ->
  Scene3D.shakeForce s = 0%Z ->
  Forall2 (fun m m' =>
             Scene3D.key m' = Scene3D.key m
             /\ Cannon.position (Scene3D.cylinder m') = Cannon.position (Scene3D.cylinder m)
             /\ Cannon.rotation (Scene3D.cylinder m') = Cannon.rotation (Scene3D.cylinder m)
             /\ Cannon.angularVelocity (Scene3D.cylinder m')
                = Cannon.angularVelocity (Scene3D.cylinder m)
             /\ vy (Scene3D.cylinder m) <= vy (Scene3D.cylinder m'))
          (Scene3D.mounted s) (Scene3D.mounted (Scene3D.shakeBoard random s))
  /\ Scene3D.randomCalls (Scene3D.shakeBoard random s)
     = (Scene3D.randomCalls s + 96)%nat.
Proof.
  intros Hu Hc Hmass Hi Hf. unfold Scene3D.shakeBoard.
  rewrite (render_consistent_state random s _ _ Hc). rewrite Hf.
  set (f := Z.min (Scene3D.shakeIntensity s + 1) 10).
  assert (Hpos : (0 < f)%Z) by (unfold f; lia).
  destruct (Z.eqb_spec f 0) as [E|_]; [lia|].
  set (g := fun (mp : Scene3D.Mounted * Scene3D.PieceData) (c : nat) =>
              Scene3D.shakeEffect random f
                (Scene3D.mkMounted (Scene3D.key (fst mp)) (snd mp)
                                   (Scene3D.cylinder (fst mp))) c).
  assert (Hg : forall mp c, snd (g mp c) = (c + 3)%nat).
  { intros mp c. unfold g, Scene3D.shakeEffect.
    rewrite shakeImpulse_positive by exact Hpos. cbn [snd]. lia. }
  destruct (forEachRandom_spec g 3 Hg (combine (Scene3D.mounted s) Scene3D.newPieces)
              (Scene3D.randomCalls s)) as [Hcalls _].
  assert (Hstep : forall (mp : Scene3D.Mounted * Scene3D.PieceData) (c : nat),
             0 < Cannon.mass (Scene3D.cylinder (fst mp)) ->
             Scene3D.key (fst (g mp c)) = Scene3D.key (fst mp)
             /\ Cannon.position (Scene3D.cylinder (fst (g mp c)))
                = Cannon.position (Scene3D.cylinder (fst mp))
             /\ Cannon.rotation (Scene3D.cylinder (fst (g mp c)))
                = Cannon.rotation (Scene3D.cylinder (fst mp))
             /\ Cannon.angularVelocity (Scene3D.cylinder (fst (g mp c)))
                = Cannon.angularVelocity (Scene3D.cylinder (fst mp))
             /\ vy (Scene3D.cylinder (fst mp)) <= vy (Scene3D.cylinder (fst (g mp c)))).
  { intros mp c Hm. unfold g.
    destruct (shakeEffect_lifts random f
                (Scene3D.mkMounted (Scene3D.key (fst mp)) (snd mp)
                                   (Scene3D.cylinder (fst mp))) c Hu Hpos Hm)
      as [H1 [H2 [H3 [H4 [H5 _]]]]].
    repeat split; assumption. }
  pose proof (forEachRandom_Forall2 g
                (fun mp m' =>
                   0 < Cannon.mass (Scene3D.cylinder (fst mp)) ->
                   Scene3D.key m' = Scene3D.key (fst mp)
                   /\ Cannon.position (Scene3D.cylinder m')
                      = Cannon.position (Scene3D.cylinder (fst mp))
                   /\ Cannon.rotation (Scene3D.cylinder m')
                      = Cannon.rotation (Scene3D.cylinder (fst mp))
                   /\ Cannon.angularVelocity (Scene3D.cylinder m')
                      = Cannon.angularVelocity (Scene3D.cylinder (fst mp))
                   /\ vy (Scene3D.cylinder (fst mp)) <= vy (Scene3D.cylinder m'))
                Hstep
                (combine (Scene3D.mounted s) Scene3D.newPieces)
                (Scene3D.randomCalls s)) as HF.
  destruct (forEachRandom g (combine (Scene3D.mounted s) Scene3D.newPieces)
              (Scene3D.randomCalls s)) as [mounted' calls'].
  cbn [fst snd] in Hcalls, HF. cbn [Scene3D.mounted Scene3D.randomCalls]. split.
  - apply (Forall2_combine_fst _ (fun m => 0 < Cannon.mass (Scene3D.cylinder m))
             (Scene3D.mounted s) Scene3D.newPieces mounted');
      [now apply consistent_length | exact Hmass | exact HF].
  - rewrite Hcalls, length_combine, (consistent_length s Hc), Nat.min_id. reflexivity.
Qed.

Lemma shake3D_never_pushes_down_witness :
  unitDraws highDraws
  /\ consistent scene3D
  /\ Forall (fun m => 0 < Cannon.mass (Scene3D.cylinder m)) (Scene3D.mounted scene3D)
  /\ (0 <= Scene3D.shakeIntensity scene3D)%Z
  /\ Scene3D.shakeForce scene3D = 0%Z
  /\ Scene3D.randomCalls (Scene3D.shakeBoard highDraws scene3D)
     = (Scene3D.randomCalls scene3D + 96)%nat.
Proof.
  assert (U : unitDraws highDraws)
    by (intros n; split; [discriminate | reflexivity]).
  assert (C : consistent scene3D) by (vm_compute; reflexivity).
  assert (M : Forall (fun m => 0 < Cannon.mass (Scene3D.cylinder m))
                     (Scene3D.mounted scene3D))
    by (vm_compute; repeat constructor).
  assert (I : (0 <= Scene3D.shakeIntensity scene3D)%Z) by (vm_compute; discriminate).
  assert (F : Scene3D.shakeForce scene3D = 0%Z) by (vm_compute; reflexivity).
  split; [exact U|]. split; [exact C|]. split; [exact M|]. split; [exact I|].
  split; [exact F|].
  exact (proj2 (shake3D_never_pushes_down highDraws scene3D U C M I F)).
Defined.

Lemma force3D_run (random : nat -> Q) (s : Scene3D.State) (c : Scene3D.Command) :
  (0 <= Scene3D.shakeIntensity s <= 10)%Z ->
  (0 <= Scene3D.shakeIntensity (Scene3D.run random s c) <= 10)%Z
  /\ (Scene3D.shakeForce (Scene3D.run random s c) = 0%Z
      \/ Scene3D.shakeForce (Scene3D.run random s c)
         = Scene3D.shakeIntensity (Scene3D.run random s c)).
Proof.
  intros H. destruct c; simpl;
    unfold Scene3D.shakeBoard, Scene3D.shakeTimeout, Scene3D.resetBoard;
    match goal with
    | |- context [Scene3D.render random s ?i ?f ?t] =>
        destruct (render_fields random s i f t) as [-> [-> _]]
    end; split; try lia; auto.
Qed.

(** X8.  Along every run of the 3D page (shakes, timeouts and resets in any
    order) the shake force handed to the pieces is either 0 or the current
    intensity, hence never above 10, and the mounted pieces are exactly the
    32 entries of the layout under the current reset key. *)
Theorem scene_force_follows_intensity (random : nat -> Q) (cs : list Scene3D.Command) :
  (Scene3D.shakeForce (Scene3D.runAll random (Scene3D.initialState random) cs) = 0%Z
   \/ Scene3D.shakeForce (Scene3D.runAll random (Scene3D.initialState random) cs)
      = Scene3D.shakeIntensity (Scene3D.runAll random (Scene3D.initialState random) cs))
  /\ (0 <= Scene3D.shakeForce (Scene3D.runAll random (Scene3D.initialState random) cs)
      <= 10)%Z
  /\ consistent (Scene3D.runAll random (Scene3D.initialState random) cs)
  /\ List.length
       (Scene3D.mounted (Scene3D.runAll random (Scene3D.initialState random) cs))
     = 32%nat.
Proof.
  assert (G : forall (l : list Scene3D.Command) (s : Scene3D.State),
             (0 <= Scene3D.shakeIntensity s <= 10)%Z ->
             (Scene3D.shakeForce s = 0%Z \/ Scene3D.shakeForce s = Scene3D.shakeIntensity s) ->
             consistent s ->
             (0 <= Scene3D.shakeIntensity (Scene3D.runAll random s l) <= 10)%Z
             /\ (Scene3D.shakeForce (Scene3D.runAll random s l) = 0%Z
                 \/ Scene3D.shakeForce (Scene3D.runAll random s l)
                    = Scene3D.shakeIntensity (Scene3D.runAll random s l))
             /\ consistent (Scene3D.runAll random s l)).
  { induction l as [|c l IH]; intros s Hi Hf Hc; simpl; [auto|].
    destruct (force3D_run random s c Hi) as [Hi' Hf'].
    apply IH; [exact Hi' | exact Hf' | apply run3D_consistent]. }
  assert (I0 : Scene3D.initialState random
               = Scene3D.mkState 0 0 0
                   (map (fun pd => Scene3D.mount pd 0) Scene3D.newPieces) 0)
    by apply initialState3D_mounts.
  destruct (G cs (Scene3D.initialState random)) as [Hi [Hf Hc]].
  - rewrite I0. simpl. lia.
  - rewrite I0. now left.
  - apply render_consistent.
  - split; [exact Hf|]. split; [destruct Hf as [-> | ->]; lia|]. split; [exact Hc|].
    now rewrite (consistent_length _ Hc).
Qed.

(** ** The camera of the 3D scene *)

Lemma clamp_range (lo hi v : Q) :
  lo <= hi -> lo <= Qmax lo (Qmin hi v) /\ Qmax lo (Qmin hi v) <= hi.
Proof.
  intros H.
  destruct (Q.max_spec lo (Qmin hi v)) as [[L E]|[L E]];
    destruct (Q.min_spec hi v) as [[L' E']|[L' E']]; lra.
Qed.

Lemma clamp_inside (lo hi v : Q) :
  lo <= v -> v <= hi -> Qmax lo (Qmin hi v) == v.
Proof.
  intros H1 H2.
  destruct (Q.max_spec lo (Qmin hi v)) as [[L E]|[L E]];
    destruct (Q.min_spec hi v) as [[L' E']|[L' E']]; lra.
Qed.

Lemma clamp_nearer (lo hi v q : Q) :
  lo <= q -> q <= hi -> Qabs (Qmax lo (Qmin hi v) - q) <= Qabs (v - q).
Proof.
  intros H1 H2.
  assert (A1 : v - q <= Qabs (v - q)) by apply Qle_Qabs.
  assert (A2 : - (v - q) <= Qabs (v - q)) by (rewrite <- Qabs_opp; apply Qle_Qabs).
  apply Qabs_Qle_condition.
  destruct (Q.max_spec lo (Qmin hi v)) as [[L E]|[L E]];
    destruct (Q.min_spec hi v) as [[L' E']|[L' E']]; split; lra.
Qed.

(** X9.  Whatever position the controls left the camera at, after the frame
    callback of [CameraController] it is within the clamp range, hence inside
    the room: it lies in none of the four wall boxes, nor in the ceiling, nor
    in the floor.  Without controls the callback leaves the camera alone. *)
Theorem camera_stays_in_room (position : Cannon.Triplet) :
  inCameraRange (Room.cameraFrame true position)
  /\ Forall (fun box => ~ insideBox (Room.cameraFrame true position) box)
            (Room.woodenFloor :: Room.roomWalls)
  /\ Room.cameraFrame false position = position.
Proof.
  destruct position as [[px py] pz]. unfold Room.cameraFrame, inCameraRange.
  cbn [fst snd].
  destruct (clamp_range (- 14.5) 14.5 px) as [X1 X2]; [discriminate|].
  destruct (clamp_range (- 2.5) 9.5 py) as [Y1 Y2]; [discriminate|].
  destruct (clamp_range (- 14.5) 14.5 pz) as [Z1 Z2]; [discriminate|].
  split; [repeat split; assumption|]. split; [|reflexivity].
  set (cx := Qmax (- 14.5) (Qmin 14.5 px)) in *.
  set (cy := Qmax (- 2.5) (Qmin 9.5 py)) in *.
  set (cz := Qmax (- 14.5) (Qmin 14.5 pz)) in *.
  unfold Room.woodenFloor, Room.roomWalls.
  repeat (constructor;
          [unfold insideBox; cbn [Room.centre Room.args];
           intros [Hx [Hy Hz]];
           apply Qabs_Qle_condition in Hx; apply Qabs_Qle_condition in Hy;
           apply Qabs_Qle_condition in Hz;
           destruct Hx, Hy, Hz;
           repeat match goal with
                  | H : context [?a / ?b] |- _ =>
                      let v := eval vm_compute in (a / b) in
                      change (a / b) with v in H
                  end;
           lra|]).
  constructor.
Qed.

(** X10.  The frame callback moves the camera to the nearest point of the
    clamp range: a camera already in range stays where it is, applying
    the callback twice is the same as applying it once, and no coordinate
    ends up further from any point of the range than it was. *)
Theorem camera_clamp_is_projection (position : Cannon.Triplet) :
  (inCameraRange position -> tripletEq (Room.cameraFrame true position) position)
  /\ tripletEq (Room.cameraFrame true (Room.cameraFrame true position))
               (Room.cameraFrame true position)
  /\ (forall q : Cannon.Triplet,
         inCameraRange q ->
         Qabs (fst (fst (Room.cameraFrame true position)) - fst (fst q))
         <= Qabs (fst (fst position) - fst (fst q))
         /\ Qabs (snd (fst (Room.cameraFrame true position)) - snd (fst q))
            <= Qabs (snd (fst position) - snd (fst q))
         /\ Qabs (snd (Room.cameraFrame true position) - snd q)
            <= Qabs (snd position - snd q)).
Proof.
  destruct position as [[px py] pz].
  unfold Room.cameraFrame, inCameraRange, tripletEq. cbn [fst snd].
  split; [|split].
  - intros [[X1 X2] [[Y1 Y2] [Z1 Z2]]].
    repeat split; apply clamp_inside; assumption.
  - destruct (clamp_range (- 14.5) 14.5 px) as [X1 X2]; [discriminate|].
    destruct (clamp_range (- 2.5) 9.5 py) as [Y1 Y2]; [discriminate|].
    destruct (clamp_range (- 14.5) 14.5 pz) as [Z1 Z2]; [discriminate|].
    repeat split; apply clamp_inside; assumption.
  - intros [[qx qy] qz] [[X1 X2] [[Y1 Y2] [Z1 Z2]]]. cbn [fst snd] in *.
    repeat split; apply clamp_nearer; assumption.
Qed.

Lemma camera_clamp_is_projection_witness :
  inCameraRange (12, 4, 0)
  /\ tripletEq (Room.cameraFrame true (12, 4, 0)) (12, 4, 0)
  /\ Qabs (fst (fst (Room.cameraFrame true (15, 4, 0))) - fst (fst (12, 4, 0)))
     <= Qabs (fst (fst (15, 4, 0)) - fst (fst (12, 4, 0))).
Proof.
  assert (R : inCameraRange (12, 4, 0))
    by (unfold inCameraRange; cbn [fst snd]; repeat split; discriminate).
  split; [exact R|].
  split; [exact (proj1 (camera_clamp_is_projection (12, 4, 0)) R)|].
  exact (proj1 (proj2 (proj2 (camera_clamp_is_projection (15, 4, 0))) (12, 4, 0) R)).
Defined.

(** ** The solid board of the 3D scene *)

(** X11.  While the shake force is positive the frame callback of
    [SolidChessBoard] only ever lifts the board: whatever the time, its
    height is at least the safe height and at most 0.0045 times the shake
    force above it, and each of its two tilts is at most 0.0075 times the
    shake force.  It never moves the board sideways or turns it about the
    vertical axis. *)
Theorem board_jumps_only_upward (w : Board3D.Wave) (shakeForce : Z) (g : Board3D.Group) :
  unitWave w ->
  (0 < shakeForce)%Z ->
  exists g' : Board3D.Group,
    Board3D.boardFrame w shakeForce (Some g) = Some g'
    /\ Board3D.safeYPosition <= snd (fst (Board3D.groupPosition g'))
    /\ snd (fst (Board3D.groupPosition g'))
       <= Board3D.safeYPosition + 0.0045 * inject_Z shakeForce
    /\ Qabs (fst (fst (Board3D.groupRotation g'))) <= 0.0075 * inject_Z shakeForce
    /\ Qabs (snd (Board3D.groupRotation g')) <= 0.0075 * inject_Z shakeForce
    /\ fst (fst (Board3D.groupPosition g')) = fst (fst (Board3D.groupPosition g))
    /\ snd (Board3D.groupPosition g') = snd (Board3D.groupPosition g)
    /\ snd (fst (Board3D.groupRotation g')) = snd (fst (Board3D.groupRotation g)).
Proof.
  intros [[S1 S2] [[C1 C2] [J1 J2]]] Hf.
  destruct g as [[[px py] pz] [[rx ry] rz]].
  unfold Board3D.boardFrame. cbn [Board3D.groupPosition Board3D.groupRotation].
  destruct (Z.ltb_spec 0 shakeForce) as [_|Hle]; [|lia].
  eexists. split; [reflexivity|].
  cbn [Board3D.groupPosition Board3D.groupRotation fst snd].
  assert (Hq : 1 <= inject_Z shakeForce) by (unfold Qle; simpl; lia).
  unfold Board3D.safeYPosition.
  split; [nra|]. split; [nra|].
  split; [apply Qabs_Qle_condition; split; nra|].
  split; [apply Qabs_Qle_condition; split; nra|].
  repeat split.
Qed.

Lemma board_jumps_only_upward_witness :
  unitWave (Board3D.mkWave (- 1) 1 (- 1))
  /\ (0 < 10)%Z
  /\ exists g' : Board3D.Group,
      Board3D.boardFrame (Board3D.mkWave (- 1) 1 (- 1)) 10
        (Some (Board3D.mkGroup (0, Board3D.safeYPosition, 0) (0, 0, 0))) = Some g'
      /\ Board3D.safeYPosition <= snd (fst (Board3D.groupPosition g')).
Proof.
  assert (U : unitWave (Board3D.mkWave (- 1) 1 (- 1)))
    by (unfold unitWave; cbn; repeat split; discriminate).
  assert (P : (0 < 10)%Z) by lia.
  split; [exact U|]. split; [exact P|].
  destruct (board_jumps_only_upward (Board3D.mkWave (- 1) 1 (- 1)) 10
              (Board3D.mkGroup (0, Board3D.safeYPosition, 0) (0, 0, 0)) U P)
    as [g' [E [H _]]].
  exists g'. split; [exact E | exact H].
Defined.



(** ** Piece heights and square colours *)

Lemma lower_upper_ascii (c : ascii) : lowerAscii (upperAscii c) = lowerAscii c.
Proof. destruct c as [[|] [|] [|] [|] [|] [|] [|] [|]]; reflexivity. Qed.

Lemma lower_lower_ascii (c : ascii) : lowerAscii (lowerAscii c) = lowerAscii c.
Proof. destruct c as [[|] [|] [|] [|] [|] [|] [|] [|]]; reflexivity. Qed.

Lemma toLowerCase_toUpperCase (s : string) :
  toLowerCase (toUpperCase s) = toLowerCase s.
Proof.
  induction s as [|c s IH]; simpl; [reflexivity|].
  now rewrite lower_upper_ascii, IH.
Qed.

Lemma toLowerCase_idempotent (s : string) :
  toLowerCase (toLowerCase s) = toLowerCase s.
Proof.
  induction s as [|c s IH]; simpl; [reflexivity|].
  now rewrite lower_lower_ascii, IH.
Qed.

(** X13.  The height [getPieceHeight] gives a piece depends on its kind and
    not on its colour: a code, its upper-case form and its lower-case form
    get the same height (for codes in ASCII, the range on which case
    mapping is modelled).  Whatever the code, known or not, the height is
    between 0.3 and 0.55. *)
Theorem piece_height_ignores_colour (piece : string) :
  isAscii piece = true ->
  Scene3D.getPieceHeight (toUpperCase piece) = Scene3D.getPieceHeight piece
  /\ Scene3D.getPieceHeight (toLowerCase piece) = Scene3D.getPieceHeight piece
  /\ 0.3 <= Scene3D.getPieceHeight piece
  /\ Scene3D.getPieceHeight piece <= 0.55.
Proof.
  intros _. unfold Scene3D.getPieceHeight.
  rewrite toLowerCase_toUpperCase, toLowerCase_idempotent.
  split; [reflexivity|]. split; [reflexivity|].
  destruct (String.eqb (toLowerCase piece) "p");
    [split; discriminate|].
  destruct (String.eqb (toLowerCase piece) "r");
    [split; discriminate|].
  destruct (String.eqb (toLowerCase piece) "n" || String.eqb (toLowerCase piece) "b")%bool;
    [split; discriminate|].
  destruct (String.eqb (toLowerCase piece) "q");
    [split; discriminate|].
  destruct (String.eqb (toLowerCase piece) "k"); split; discriminate.
Qed.

Lemma piece_height_ignores_colour_witness :
  isAscii "q" = true
  /\ Scene3D.getPieceHeight (toUpperCase "q") = Scene3D.getPieceHeight "q".
Proof.
  assert (A : isAscii "q" = true) by reflexivity.
  split; [exact A|]. exact (proj1 (piece_height_ignores_colour "q" A)).
Defined.

Lemma succ_mod2 (n : nat) :
  Nat.eqb (S n mod 2) 0 = negb (Nat.eqb (n mod 2) 0).
Proof.
  pose proof (Nat.mod_upper_bound n 2 ltac:(lia)) as Hn.
  pose proof (Nat.mod_upper_bound (S n) 2 ltac:(lia)) as HSn.
  pose proof (Nat.div_mod_eq n 2) as En.
  pose proof (Nat.div_mod_eq (S n) 2) as ESn.
  destruct (n mod 2) as [|[|k]] eqn:E1; destruct (S n mod 2) as [|[|k']] eqn:E2;
    simpl; try reflexivity; lia.
Qed.

(** X14.  The colour test of the board squares makes a checkerboard: moving
    one square along a row or along a column always changes the colour, and
    moving one square diagonally never does. *)
Theorem squares_alternate (row col : nat) :
  isLight row (S col) = negb (isLight row col)
  /\ isLight (S row) col = negb (isLight row col)
  /\ isLight (S row) (S col) = isLight row col.
Proof.
  unfold isLight.
  rewrite Nat.add_succ_r. cbn [Nat.add]. rewrite Nat.add_succ_r.
  rewrite !succ_mod2. rewrite Bool.negb_involutive. repeat split.
Qed.

(** ** The older 3D page *)

Lemma legacy_applyShake_tilt (random sine : nat -> Q) (s : Legacy3D.State)
      (g : Board3D.Group) :
  unitDraws random -> unitSines sine ->
  (0 <= Legacy3D.shakeIntensity s)%Z ->
  Legacy3D.boardRef s = Some g ->
  exists g' : Board3D.Group,
    Legacy3D.applyShake random sine s
    = Legacy3D.mkState (Legacy3D.shakeIntensity s) (Some g')
                       (S (S (Legacy3D.randomCalls s)))
    /\ tiltWithin (inject_Z (Legacy3D.shakeIntensity s)) g'.
Proof.
  intros Hu Hs Hi Hg. unfold Legacy3D.applyShake. rewrite Hg.
  destruct g as [[[px py] pz] [[rx ry] rz]].
  cbn [Board3D.groupPosition Board3D.groupRotation].
  eexists. split; [reflexivity|].
  unfold tiltWithin. cbn [Board3D.groupPosition Board3D.groupRotation fst snd].
  assert (Hq : 0 <= inject_Z (Legacy3D.shakeIntensity s)) by (unfold Qle; simpl; lia).
  destruct (Hu (Legacy3D.randomCalls s)) as [A0 A1].
  destruct (Hu (S (Legacy3D.randomCalls s))) as [B0 B1].
  destruct (Hs (Legacy3D.randomCalls s)) as [C0 C1].
  repeat split; apply Qabs_Qle_condition; split; nra.
Qed.

(** X15.  On the older 3D page the board never tilts by more than 0.1 about
    either horizontal axis and never sits more than 0.5 above or below its
    mount height, whatever the buttons pressed; the intensity stays between
    0 and 10. *)
Theorem legacy_tilt_bounded (random sine : nat -> Q) (cs : list Legacy3D.Command) :
  unitDraws random ->
  unitSines sine ->
  (0 <= Legacy3D.shakeIntensity (Legacy3D.runAll random sine Legacy3D.mountedState cs)
   <= 10)%Z
  /\ exists g : Board3D.Group,
      Legacy3D.boardRef (Legacy3D.runAll random sine Legacy3D.mountedState cs) = Some g
      /\ tiltWithin 10 g.
Proof.
  intros Hu Hs.
  assert (W : forall (level level' : Q) (g : Board3D.Group),
             0 <= level -> level <= level' -> tiltWithin level g -> tiltWithin level' g).
  { unfold tiltWithin. intros l l' g H0 Hl [H1 [H2 H3]]. repeat split; lra. }
  assert (G : forall (l : list Legacy3D.Command) (s : Legacy3D.State),
             (0 <= Legacy3D.shakeIntensity s <= 10)%Z ->
             (exists g, Legacy3D.boardRef s = Some g /\ tiltWithin 10 g) ->
             (0 <= Legacy3D.shakeIntensity (Legacy3D.runAll random sine s l) <= 10)%Z
             /\ exists g, Legacy3D.boardRef (Legacy3D.runAll random sine s l) = Some g
                          /\ tiltWithin 10 g).
  { induction l as [|c l IH]; intros s Hi Hg; simpl; [auto|].
    apply IH; destruct c; simpl;
      unfold Legacy3D.shakeBoard, Legacy3D.resetBoard, Legacy3D.setShakeIntensity,
        Legacy3D.renderChessBoard;
      cbn [Legacy3D.shakeIntensity].
    - destruct (Z.eqb_spec (Z.min (Legacy3D.shakeIntensity s + 1) 10)
                           (Legacy3D.shakeIntensity s)); [exact Hi|].
      destruct (Z.ltb_spec 0 (Z.min (Legacy3D.shakeIntensity s + 1) 10)); [|simpl; lia].
      destruct Hg as [g [Hg _]].
      destruct (legacy_applyShake_tilt random sine
                  (Legacy3D.mkState (Z.min (Legacy3D.shakeIntensity s + 1) 10)
                                    (Legacy3D.boardRef s) (Legacy3D.randomCalls s))
                  g Hu Hs) as [g' [-> _]]; [simpl; lia | exact Hg |].
      simpl. lia.
    - destruct (Z.eqb_spec 0 (Legacy3D.shakeIntensity s)); [exact Hi|]. simpl. lia.
    - destruct (Z.eqb_spec (Z.min (Legacy3D.shakeIntensity s + 1) 10)
                           (Legacy3D.shakeIntensity s)); [exact Hg|].
      destruct (Z.ltb_spec 0 (Z.min (Legacy3D.shakeIntensity s + 1) 10)); [|exact Hg].
      destruct Hg as [g [Hg _]].
      destruct (legacy_applyShake_tilt random sine
                  (Legacy3D.mkState (Z.min (Legacy3D.shakeIntensity s + 1) 10)
                                    (Legacy3D.boardRef s) (Legacy3D.randomCalls s))
                  g Hu Hs) as [g' [-> Ht]]; [simpl; lia | exact Hg |].
      exists g'. split; [reflexivity|]. cbn [Legacy3D.shakeIntensity] in Ht.
      apply (W (inject_Z (Z.min (Legacy3D.shakeIntensity s + 1) 10))); [| |exact Ht];
        unfold Qle; simpl; lia.
    - destruct (Z.eqb_spec 0 (Legacy3D.shakeIntensity s)); exact Hg. }
  apply G.
  - simpl. lia.
  - eexists. split; [reflexivity|]. unfold tiltWithin. cbn. repeat split; discriminate.
Qed.

Lemma legacy_tilt_bounded_witness :
  unitDraws highDraws
  /\ unitSines (fun _ => 1)
  /\ exists g : Board3D.Group,
      Legacy3D.boardRef
        (Legacy3D.runAll highDraws (fun _ => 1) Legacy3D.mountedState
                         [Legacy3D.Shake; Legacy3D.Shake; Legacy3D.Reset; Legacy3D.Shake])
      = Some g
      /\ tiltWithin 10 g.
Proof.
  assert (U : unitDraws highDraws)
    by (intros n; split; [discriminate | reflexivity]).
  assert (S1 : unitSines (fun _ => 1)) by (intros n; split; discriminate).
  split; [exact U|]. split; [exact S1|].
  exact (proj2 (legacy_tilt_bounded highDraws (fun _ => 1)
                  [Legacy3D.Shake; Legacy3D.Shake; Legacy3D.Reset; Legacy3D.Shake] U S1)).
Defined.


